(** * Blogicum: visibility rules and mutation handlers

    A shallow embedding of [blogicum/blog/models.py] and
    [blogicum/blog/views.py].  Tables are finite maps keyed by primary key,
    timestamps are integers (seconds), the views are computations in a
    state-and-exception monad over the store. *)

From stdpp Require Import gmap strings list fin_maps sorting.
From Stdlib Require Import ZArith Lia.

Open Scope Z_scope.

(** ** Data model ([blog/models.py], [core/models.py]) *)

(** The user model is Django's own; the views only read [username] and
    compare instances, which Django does by primary key. *)
Record User := mkUser {
  username : string;
  first_name : string;
  last_name : string;
  email : string;
}.

(** [Category(PublishedMixin)] *)
Record Category := mkCategory {
  category_title : string;
  category_description : string;
  category_slug : string;
  category_is_published : bool;
  category_created_at : Z;
}.

(** [Location(PublishedMixin)] *)
Record Location := mkLocation {
  location_name : string;
  location_is_published : bool;
  location_created_at : Z;
}.

(** [Post(PublishedMixin)]: [author] is a required foreign key, [location]
    and [category] are nullable ones. *)
Record Post := mkPost {
  post_title : string;
  post_text : string;
  post_pub_date : Z;
  post_image : option string;
  post_author : Z;
  post_location : option Z;
  post_category : option Z;
  post_is_published : bool;
  post_created_at : Z;
}.

(** [Comment(CreatedAtMixin)]: [author] is nullable, [post] is required. *)
Record Comment := mkComment {
  comment_text : string;
  comment_author : option Z;
  comment_post : Z;
  comment_created_at : Z;
}.

(** The database: one table per model, keyed by primary key. *)
Record Store := mkStore {
  users : gmap Z User;
  categories : gmap Z Category;
  locations : gmap Z Location;
  posts : gmap Z Post;
  comments : gmap Z Comment;
}.

#[global] Instance User_eq_dec : EqDecision User.
Proof. solve_decision. Defined.
#[global] Instance Category_eq_dec : EqDecision Category.
Proof. solve_decision. Defined.
#[global] Instance Location_eq_dec : EqDecision Location.
Proof. solve_decision. Defined.
#[global] Instance Post_eq_dec : EqDecision Post.
Proof. solve_decision. Defined.
#[global] Instance Comment_eq_dec : EqDecision Comment.
Proof. solve_decision. Defined.

(** ** Requests *)

Inductive Method := GET | POST | HEAD | PUT | DELETE.

#[global] Instance Method_eq_dec : EqDecision Method.
Proof. solve_decision. Defined.

(** [request.user]: either Django's [AnonymousUser] or a row of the user
    table together with its primary key. *)
Inductive RequestUser :=
  | AnonymousUser
  | AuthenticatedUser (pk : Z) (u : User).

Definition is_authenticated (u : RequestUser) : bool :=
  match u with
  | AnonymousUser => false
  | AuthenticatedUser _ _ => true
  end.

Definition user_pk (u : RequestUser) : option Z :=
  match u with
  | AnonymousUser => None
  | AuthenticatedUser pk _ => Some pk
  end.

(** The submitted form fields ([request.POST], with the uploaded file of
    [request.FILES] as [data_image]), after Django's field conversion: an
    absent or unparsable field is the empty string or [None].
    [data_image_clear] is the box [image-clear] the file widget offers for
    dropping the stored image. *)
Record QueryDict := mkQueryDict {
  data_title : string;
  data_text : string;
  data_pub_date : option Z;
  data_image : option string;
  data_image_clear : bool;
  data_location : option Z;
  data_category : option Z;
}.

(** [now] is the reading of [timezone.now()] while the request is served;
    [GET_page] is [request.GET.get('page')] read as an integer, [None] when
    it is absent or not one; [POST_data] is [request.POST or None], so [None]
    is an empty submission. *)
Record HttpRequest := mkRequest {
  user : RequestUser;
  method : Method;
  now : Z;
  GET_page : option Z;
  POST_data : option QueryDict;
}.

(** ** Query conditions ([django.db.models.Q]) *)

(** The field lookups the views use on [Post]. *)
Inductive Lookup :=
  | pk_exact (v : Z)
  | pub_date__lte (v : Z)
  | is_published_exact (v : bool)
  | category__is_published (v : bool)
  | author_exact (v : Z).

Inductive Q :=
  | QLookup (l : Lookup)
  | QAnd (a b : Q)
  | QOr (a b : Q).

(** A lookup through the nullable [category] key joins the category table:
    on a post without category the joined column is NULL and the comparison
    does not hold. *)
Definition Lookup_holds (s : Store) (l : Lookup) (pk : Z) (p : Post) : bool :=
  match l with
  | pk_exact v => bool_decide (pk = v)
  | pub_date__lte v => bool_decide (post_pub_date p <= v)
  | is_published_exact v => bool_decide (post_is_published p = v)
  | category__is_published v =>
      match post_category p with
      | None => false
      | Some c =>
          match categories s !! c with
          | None => false
          | Some cat => bool_decide (category_is_published cat = v)
          end
      end
  | author_exact v => bool_decide (post_author p = v)
  end.

Fixpoint Q_holds (s : Store) (q : Q) (pk : Z) (p : Post) : bool :=
  match q with
  | QLookup l => Lookup_holds s l pk p
  | QAnd a b => Q_holds s a pk p && Q_holds s b pk p
  | QOr a b => Q_holds s a pk p || Q_holds s b pk p
  end.

(** [_get_q_available] (views.py:14) *)
Definition _get_q_available (request : HttpRequest) (own : bool) : Q :=
  let q_available :=
    QAnd (QLookup (pub_date__lte (now request)))
      (QAnd (QLookup (is_published_exact true))
            (QLookup (category__is_published true))) in
  match user request with
  | AuthenticatedUser pk _ =>
      if own then QOr q_available (QLookup (author_exact pk)) else q_available
  | AnonymousUser => q_available
  end.

(** ** Querysets *)

(** [Post.objects], [Comment.objects], [Category.objects], [User.objects]:
    the rows of a table with their primary keys. *)
Definition Post_objects (s : Store) : list (Z * Post) := map_to_list (posts s).
Definition Comment_objects (s : Store) : list (Z * Comment) :=
  map_to_list (comments s).
Definition Category_objects (s : Store) : list (Z * Category) :=
  map_to_list (categories s).
Definition User_objects (s : Store) : list (Z * User) := map_to_list (users s).

(** [qs.filter(q)] on posts. *)
Definition filter_posts (s : Store) (q : Q) (qs : list (Z * Post)) :
    list (Z * Post) :=
  filter (λ r, Q_holds s q r.1 r.2) qs.

(** [.order_by('-pub_date')]; rows with equal dates stay in scan order. *)
Definition pub_date_desc (a b : Z * Post) : Prop :=
  post_pub_date b.2 <= post_pub_date a.2.

#[global] Instance pub_date_desc_dec a b : Decision (pub_date_desc a b).
Proof. unfold pub_date_desc. apply _. Defined.

Definition order_by_pub_date_desc (qs : list (Z * Post)) : list (Z * Post) :=
  merge_sort pub_date_desc qs.

(** [.order_by('created_at')] on comments. *)
Definition created_at_asc (a b : Z * Comment) : Prop :=
  comment_created_at a.2 <= comment_created_at b.2.

#[global] Instance created_at_asc_dec a b : Decision (created_at_asc a b).
Proof. unfold created_at_asc. apply _. Defined.

Definition order_by_created_at (qs : list (Z * Comment)) :
    list (Z * Comment) :=
  merge_sort created_at_asc qs.

(** [post.comments] / [Comment.objects.filter(post=post)] *)
Definition comments_of_post (s : Store) (post_pk : Z) : list (Z * Comment) :=
  filter (λ r, comment_post r.2 = post_pk) (Comment_objects s).

(** [category.posts] and [user.posts], the reverse side of the foreign keys. *)
Definition posts_of_category (s : Store) (category_pk : Z) :
    list (Z * Post) :=
  filter (λ r, post_category r.2 = Some category_pk) (Post_objects s).

Definition posts_of_user (s : Store) (user_pk : Z) : list (Z * Post) :=
  filter (λ r, post_author r.2 = user_pk) (Post_objects s).

(** A post row with [.annotate(comment_count=Count('comments'))]. *)
Record AnnotatedPost := mkAnnotated {
  row_pk : Z;
  row_post : Post;
  comment_count : nat;
}.

Definition annotate_comment_count (s : Store) (qs : list (Z * Post)) :
    list AnnotatedPost :=
  (λ r, mkAnnotated r.1 r.2 (length (comments_of_post s r.1))) <$> qs.

(** ** Pagination ([django.core.paginator], default [orphans=0] and
    [allow_empty_first_page=True]) *)

Record Paginator := mkPaginator {
  paginator_object_list : list AnnotatedPost;
  per_page : Z;
}.

Record Page := mkPage {
  object_list : list AnnotatedPost;
  number : Z;
  paginator : Paginator;
}.

Definition count (p : Paginator) : Z :=
  Z.of_nat (length (paginator_object_list p)).

Definition num_pages (p : Paginator) : Z :=
  let hits := Z.max 1 (count p) in
  (hits + per_page p - 1) / per_page p.

Inductive PageNumber := PageOk (n : Z) | PageNotAnInteger | EmptyPage.

Definition validate_number (p : Paginator) (number : option Z) : PageNumber :=
  match number with
  | None => PageNotAnInteger
  | Some n =>
      if bool_decide (n < 1) then EmptyPage
      else if bool_decide (n > num_pages p) then EmptyPage
      else PageOk n
  end.

(** [object_list[bottom:top]] *)
Definition slice {A} (l : list A) (bottom top : Z) : list A :=
  take (Z.to_nat (top - bottom)) (drop (Z.to_nat bottom) l).

Definition page (p : Paginator) (n : Z) : Page :=
  let bottom := (n - 1) * per_page p in
  let top := bottom + per_page p in
  let top := if bool_decide (top >= count p) then count p else top in
  mkPage (slice (paginator_object_list p) bottom top) n p.

Definition get_page (p : Paginator) (number : option Z) : Page :=
  let n :=
    match validate_number p number with
    | PageOk n => n
    | PageNotAnInteger => 1
    | EmptyPage => num_pages p
    end in
  page p n.

(** ** Responses *)

(** The targets of [redirect(...)]: the named routes the views use, and the
    login page [login_required] sends anonymous visitors to. *)
Inductive Url :=
  | url_index
  | url_post_detail (post_id : Z)
  | url_profile (name : string)
  | url_login.

(** Forms as the views build them: the bound data ([request.POST or None])
    and the instance being edited. *)
Record PostForm := mkPostForm {
  post_form_data : option QueryDict;
  post_form_initial_pub_date : option Z;
  post_form_instance : option (Z * Post);
}.

Record CommentForm := mkCommentForm {
  comment_form_data : option QueryDict;
  comment_form_initial : option (RequestUser * (Z * Post));
  comment_form_instance : option (Z * Comment);
}.

(** The template contexts, one shape per template. *)
Inductive Context :=
  | ctx_index (page_obj : Page)
  | ctx_detail (post : Z * Post) (form : CommentForm)
      (post_comments : list (Z * Comment))
  | ctx_category (page_obj : Page) (category : Z * Category)
  | ctx_profile (profile : Z * User) (page_obj : Page)
  | ctx_create (form : PostForm)
  | ctx_comment (form : option CommentForm) (comment : Z * Comment)
  | ctx_none.

Inductive HttpResponse :=
  | render (template_name : string) (context : Context) (status : Z)
  | redirect (to : Url).

Definition status_code (r : HttpResponse) : Z :=
  match r with
  | render _ _ status => status
  | redirect _ => 302
  end.

(** ** The view monad: a store threaded through, and Django's exceptions *)

Inductive Exception := Http404 | MultipleObjectsReturned.

Inductive Outcome (A : Type) :=
  | Returned (a : A)
  | Raised (e : Exception).
Arguments Returned {A} a.
Arguments Raised {A} e.

Definition View (A : Type) : Type := Store → Outcome A * Store.

#[global] Instance View_ret : MRet View := λ A a s, (Returned a, s).

#[global] Instance View_bind : MBind View := λ A B k m s,
  match m s with
  | (Returned a, s') => k a s'
  | (Raised e, s') => (Raised e, s')
  end.

Definition raise {A} (e : Exception) : View A := λ s, (Raised e, s).
Definition read_store : View Store := λ s, (Returned s, s).
Definition write_store (f : Store → Store) : View unit :=
  λ s, (Returned tt, f s).

(** [get_object_or_404(qs)]: [qs.get()] with [DoesNotExist] turned into
    [Http404]; more than one row is [MultipleObjectsReturned], which it does
    not catch. *)
Definition get_object_or_404 {A} (qs : list A) : View A :=
  match qs with
  | [] => raise Http404
  | [x] => mret x
  | _ :: _ :: _ => raise MultipleObjectsReturned
  end.

(** [pages/views.py]: the error pages. *)
Definition page_not_found : HttpResponse := render "pages/404.html" ctx_none 404.
Definition internal_server_error : HttpResponse :=
  render "pages/500.html" ctx_none 500.

(** Serving a request: an uncaught [Http404] becomes the 404 page, any other
    exception the 500 page. *)
Definition serve (v : View HttpResponse) (s : Store) : HttpResponse * Store :=
  match v s with
  | (Returned r, s') => (r, s')
  | (Raised Http404, s') => (page_not_found, s')
  | (Raised MultipleObjectsReturned, s') => (internal_server_error, s')
  end.

(** [@login_required] *)
Definition login_required (request : HttpRequest) (v : View HttpResponse) :
    View HttpResponse :=
  if is_authenticated (user request) then v else mret (redirect url_login).

(** ** Saving and deleting rows ([Model.save], [Model.delete]) *)

Definition set_posts (f : gmap Z Post → gmap Z Post) (s : Store) : Store :=
  mkStore (users s) (categories s) (locations s) (f (posts s)) (comments s).

Definition set_comments (f : gmap Z Comment → gmap Z Comment) (s : Store) :
    Store :=
  mkStore (users s) (categories s) (locations s) (posts s) (f (comments s)).

Definition set_post_author (v : Z) (p : Post) : Post :=
  mkPost (post_title p) (post_text p) (post_pub_date p) (post_image p) v
    (post_location p) (post_category p) (post_is_published p)
    (post_created_at p).

Definition set_post_is_published (v : bool) (p : Post) : Post :=
  mkPost (post_title p) (post_text p) (post_pub_date p) (post_image p)
    (post_author p) (post_location p) (post_category p) v (post_created_at p).

Definition set_post_created_at (v : Z) (p : Post) : Post :=
  mkPost (post_title p) (post_text p) (post_pub_date p) (post_image p)
    (post_author p) (post_location p) (post_category p) (post_is_published p)
    v.

Definition set_post_category (v : option Z) (p : Post) : Post :=
  mkPost (post_title p) (post_text p) (post_pub_date p) (post_image p)
    (post_author p) (post_location p) v (post_is_published p)
    (post_created_at p).

Definition set_post_location (v : option Z) (p : Post) : Post :=
  mkPost (post_title p) (post_text p) (post_pub_date p) (post_image p)
    (post_author p) v (post_category p) (post_is_published p)
    (post_created_at p).

Definition set_comment_text (v : string) (c : Comment) : Comment :=
  mkComment v (comment_author c) (comment_post c) (comment_created_at c).

Definition set_comment_author (v : option Z) (c : Comment) : Comment :=
  mkComment (comment_text c) v (comment_post c) (comment_created_at c).

Definition set_comment_post (v : Z) (c : Comment) : Comment :=
  mkComment (comment_text c) (comment_author c) v (comment_created_at c).

Definition set_comment_created_at (v : Z) (c : Comment) : Comment :=
  mkComment (comment_text c) (comment_author c) (comment_post c) v.

(** The key an auto-incrementing primary key column hands out next: above
    every key in the table. *)
Definition next_pk {A} (m : gmap Z A) : Z :=
  1 + foldr Z.max 0 (map_to_list m).*1.

(** [post.save()]: an instance without primary key is inserted, and
    [created_at] ([auto_now_add]) is stamped; one with a key is updated in
    place.  Returns the row's key. *)
Definition Post_save (pk : option Z) (p : Post) (t : Z) : View Z :=
  match pk with
  | None =>
      s ← read_store;
      let k := next_pk (posts s) in
      write_store (set_posts (insert k (set_post_created_at t p)));;
      mret k
  | Some k => write_store (set_posts (insert k p));; mret k
  end.

Definition Comment_save (pk : option Z) (c : Comment) (t : Z) : View Z :=
  match pk with
  | None =>
      s ← read_store;
      let k := next_pk (comments s) in
      write_store (set_comments (insert k (set_comment_created_at t c)));;
      mret k
  | Some k => write_store (set_comments (insert k c));; mret k
  end.

(** Deletion follows the [on_delete] rule of every foreign key that points
    at the deleted row (models.py): [Post.author] and [Comment.post] are
    [CASCADE], [Post.location], [Post.category] and [Comment.author] are
    [SET_NULL].  Rows reached by a cascade are deleted with the rules of the
    keys pointing at them in turn. *)

Definition Comment_delete (pk : Z) (s : Store) : Store :=
  set_comments (delete pk) s.

(** [Comment.post] is [CASCADE]. *)
Definition Post_delete (pk : Z) (s : Store) : Store :=
  mkStore (users s) (categories s) (locations s)
    (delete pk (posts s))
    (filter (λ r, comment_post r.2 ≠ pk) (comments s)).

(** [Post.category] is [SET_NULL]. *)
Definition Category_delete (pk : Z) (s : Store) : Store :=
  mkStore (users s) (delete pk (categories s)) (locations s)
    ((λ p, if bool_decide (post_category p = Some pk)
           then set_post_category None p else p) <$> posts s)
    (comments s).

(** [Post.location] is [SET_NULL]. *)
Definition Location_delete (pk : Z) (s : Store) : Store :=
  mkStore (users s) (categories s) (delete pk (locations s))
    ((λ p, if bool_decide (post_location p = Some pk)
           then set_post_location None p else p) <$> posts s)
    (comments s).

(** [Post.author] is [CASCADE], which takes the comments of the deleted
    posts with it; [Comment.author] is [SET_NULL] on the comments that
    remain. *)
Definition User_delete (pk : Z) (s : Store) : Store :=
  let gone := filter (λ r : Z * Post, post_author r.2 = pk) (posts s) in
  mkStore (delete pk (users s)) (categories s) (locations s)
    (filter (λ r : Z * Post, post_author r.2 ≠ pk) (posts s))
    ((λ c, if bool_decide (comment_author c = Some pk)
           then set_comment_author None c else c)
       <$> filter (λ r : Z * Comment, gone !! comment_post r.2 = None)
             (comments s)).

(** ** Forms ([blog/forms.py]) *)

(** [PostForm]: fields title, text, pub_date, image, location, category.
    Title (at most 256 characters), text, pub_date and category are
    required; location and image are optional; a chosen category or location
    must be a row of its table; uploading a file and ticking the clear box
    at once is refused.  An unbound form is never valid. *)
Definition PostForm_is_valid (s : Store) (form : PostForm) : bool :=
  match post_form_data form with
  | None => false
  | Some d =>
      bool_decide (data_title d ≠ "")
      && bool_decide (String.length (data_title d) ≤ 256)%nat
      && bool_decide (data_text d ≠ "")
      && bool_decide (is_Some (data_pub_date d))
      && match data_category d with
         | None => false
         | Some c => bool_decide (is_Some (categories s !! c))
         end
      && match data_location d with
         | None => true
         | Some l => bool_decide (is_Some (locations s !! l))
         end
      && negb (data_image_clear d && bool_decide (is_Some (data_image d)))
  end.

(** A fresh [Post()]: [is_published] defaults to true; the author is not
    set until the view assigns it (0 stands for the unset key). *)
Definition Post_new : Post := mkPost "" "" 0 None 0 None None true 0.

(** [form.save(commit=False)] on a valid [PostForm]: the form's fields are
    written onto the instance, the other columns are left as they are.  An
    uploaded file replaces the image; with the clear box ticked the image
    becomes the empty name, which is what Django stores for a dropped file;
    otherwise the image of the instance is kept. *)
Definition PostForm_save (form : PostForm) : option Z * Post :=
  let pk := fst <$> post_form_instance form in
  let p := default Post_new (snd <$> post_form_instance form) in
  match post_form_data form with
  | None => (pk, p)
  | Some d =>
      (pk,
       mkPost (data_title d) (data_text d)
         (default (post_pub_date p) (data_pub_date d))
         (match data_image d with
          | Some f => Some f
          | None => if data_image_clear d then Some "" else post_image p
          end)
         (post_author p) (data_location d) (data_category d)
         (post_is_published p) (post_created_at p))
  end.

(** [CommentForm]: the single field text, required, at most 4096
    characters. *)
Definition CommentForm_is_valid (form : CommentForm) : bool :=
  match comment_form_data form with
  | None => false
  | Some d =>
      bool_decide (data_text d ≠ "")
      && bool_decide (String.length (data_text d) ≤ 4096)%nat
  end.

(** A fresh [Comment()], author and post not yet set. *)
Definition Comment_new : Comment := mkComment "" None 0 0.

Definition CommentForm_save (form : CommentForm) : option Z * Comment :=
  let pk := fst <$> comment_form_instance form in
  let c := default Comment_new (snd <$> comment_form_instance form) in
  match comment_form_data form with
  | None => (pk, c)
  | Some d => (pk, set_comment_text (data_text d) c)
  end.

(** ** Views ([blog/views.py]) *)

(** [obj == request.user] on user instances compares primary keys;
    [AnonymousUser] equals no row, and a null author equals no user. *)
Definition is_request_user (request : HttpRequest) (author : option Z) : bool :=
  match user request, author with
  | AuthenticatedUser pk _, Some a => bool_decide (a = pk)
  | _, _ => false
  end.

(** [request.user.username] *)
Definition request_username (request : HttpRequest) : string :=
  match user request with
  | AuthenticatedUser _ u => username u
  | AnonymousUser => ""
  end.

(** The lookup every single-post view starts with:
    [Post.objects.filter(Q(pk=post_id), _get_q_available(request))]. *)
Definition available_post (s : Store) (request : HttpRequest) (post_id : Z) :
    list (Z * Post) :=
  filter_posts s
    (QAnd (QLookup (pk_exact post_id)) (_get_q_available request true))
    (Post_objects s).

(** The post listings: filter, order, annotate, paginate by 10. *)
Definition listing (s : Store) (request : HttpRequest) (own : bool)
    (qs : list (Z * Post)) : list AnnotatedPost :=
  annotate_comment_count s
    (order_by_pub_date_desc (filter_posts s (_get_q_available request own) qs)).

Definition paginate (request : HttpRequest) (posts : list AnnotatedPost) :
    Page :=
  get_page (mkPaginator posts 10) (GET_page request).

Definition index (request : HttpRequest) : View HttpResponse :=
  s ← read_store;
  let posts := listing s request false (Post_objects s) in
  let page_obj := paginate request posts in
  mret (render "blog/index.html" (ctx_index page_obj) 200).

Definition post_detail (request : HttpRequest) (post_id : Z) :
    View HttpResponse :=
  s ← read_store;
  let qs := order_by_pub_date_desc (available_post s request post_id) in
  post ← get_object_or_404 qs;
  let form := mkCommentForm None (Some (user request, post)) None in
  let comments := order_by_created_at (comments_of_post s post.1) in
  mret (render "blog/detail.html" (ctx_detail post form comments) 200).

Definition category_posts (request : HttpRequest) (slug : string) :
    View HttpResponse :=
  s ← read_store;
  category ← get_object_or_404
    (filter (λ r : Z * Category,
               category_slug r.2 = slug ∧ category_is_published r.2 = true)
       (Category_objects s));
  let posts := listing s request false (posts_of_category s category.1) in
  let page_obj := paginate request posts in
  mret (render "blog/category.html" (ctx_category page_obj category) 200).

Definition profile (request : HttpRequest) (name : string) :
    View HttpResponse :=
  s ← read_store;
  user ← get_object_or_404
    (filter (λ r : Z * User, username r.2 = name) (User_objects s));
  let posts := listing s request true (posts_of_user s user.1) in
  let page_obj := paginate request posts in
  mret (render "blog/profile.html" (ctx_profile user page_obj) 200).

(** [create_post] from the form on (views.py:126-142), shared by creation
    ([post_id] is [None]) and editing. *)
Definition create_post_form (request : HttpRequest) (post_id : option Z)
    (instance : option (Z * Post)) : View HttpResponse :=
  s ← read_store;
  let form := mkPostForm (POST_data request) (Some (now request)) instance in
  if bool_decide (method request = POST) && PostForm_is_valid s form then
    let '(pk, post) := PostForm_save form in
    let post := set_post_author (default 0 (user_pk (user request))) post in
    let post := set_post_is_published true post in
    Post_save pk post (now request);;
    match post_id with
    | None => mret (redirect (url_profile (request_username request)))
    | Some post_id => mret (redirect (url_post_detail post_id))
    end
  else mret (render "blog/create.html" (ctx_create form) 200).

Definition create_post (request : HttpRequest) (post_id : option Z) :
    View HttpResponse :=
  login_required request
    match post_id with
    | Some id =>
        s ← read_store;
        instance ← get_object_or_404 (available_post s request id);
        if negb (is_request_user request (Some (post_author instance.2)))
        then mret (redirect (url_post_detail id))
        else create_post_form request post_id (Some instance)
    | None => create_post_form request post_id None
    end.

Definition delete_post (request : HttpRequest) (post_id : Z) :
    View HttpResponse :=
  login_required request
    (s ← read_store;
     instance ← get_object_or_404 (available_post s request post_id);
     if negb (is_request_user request (Some (post_author instance.2)))
     then mret (redirect (url_post_detail post_id))
     else
       let form := mkPostForm (POST_data request) None (Some instance) in
       if bool_decide (method request = POST) then
         write_store (Post_delete instance.1);;
         mret (redirect url_index)
       else mret (render "blog/create.html" (ctx_create form) 200)).

(** [add_comment] serves both routes: adding ([comment_id] is [None]) and
    editing a comment.  The assignment [comment.is_published = True] of the
    add branch sets no column ([Comment] has none of that name) and leaves
    the saved row as it is. *)
Definition add_comment (request : HttpRequest) (post_id : Z)
    (comment_id : option Z) : View HttpResponse :=
  login_required request
    (s ← read_store;
     instance ← get_object_or_404 (available_post s request post_id);
     match comment_id with
     | None =>
         if negb (bool_decide (method request = POST))
         then mret (redirect (url_post_detail post_id))
         else
           let form := mkCommentForm (POST_data request) None None in
           (if CommentForm_is_valid form then
              let '(pk, comment) := CommentForm_save form in
              let comment := set_comment_post instance.1 comment in
              let comment := set_comment_author (user_pk (user request)) comment in
              Comment_save pk comment (now request);; mret tt
            else mret tt);;
           mret (redirect (url_post_detail post_id))
     | Some comment_id =>
         let qs := filter (λ r : Z * Comment, r.1 = comment_id)
                     (Comment_objects s) in
         comment ← get_object_or_404 qs;
         if negb (is_request_user request (comment_author comment.2))
         then mret (redirect (url_post_detail post_id))
         else
           let form := mkCommentForm (POST_data request) None (Some comment) in
           if bool_decide (method request = POST) && CommentForm_is_valid form
           then
             let '(pk, comment) := CommentForm_save form in
             Comment_save pk comment (now request);;
             mret (redirect (url_post_detail post_id))
           else
             mret (render "blog/comment.html"
                     (ctx_comment (Some form) comment) 200)
     end).

Definition delete_comment (request : HttpRequest) (post_id comment_id : Z) :
    View HttpResponse :=
  login_required request
    (s ← read_store;
     instance ← get_object_or_404 (available_post s request post_id);
     let qs := filter (λ r : Z * Comment,
                         comment_post r.2 = instance.1 ∧ r.1 = comment_id)
                 (Comment_objects s) in
     comment ← get_object_or_404 qs;
     if negb (is_request_user request (comment_author comment.2))
     then mret (redirect (url_post_detail post_id))
     else if bool_decide (method request = POST) then
       write_store (Comment_delete comment.1);;
       mret (redirect (url_post_detail post_id))
     else mret (render "blog/comment.html" (ctx_comment None comment) 200)).

(** ** Notions the statements use *)

(** What a visitor may see of anybody's posts at time [t]: the publication
    date has come, the post is published, and it sits in a category that is
    published. *)
Definition publicly_visible (s : Store) (t : Z) (p : Post) : Prop :=
  post_pub_date p <= t
  ∧ post_is_published p = true
  ∧ ∃ c cat, post_category p = Some c
             ∧ categories s !! c = Some cat
             ∧ category_is_published cat = true.

(** [author == actor], for an authenticated actor. *)
Definition authored_by (request : HttpRequest) (p : Post) : Prop :=
  ∃ pk u, user request = AuthenticatedUser pk u ∧ post_author p = pk.

(** The page [post_detail] renders for a post it found. *)
Definition detail_page (s : Store) (request : HttpRequest) (post : Z * Post) :
    HttpResponse :=
  render "blog/detail.html"
    (ctx_detail post (mkCommentForm None (Some (user request, post)) None)
       (order_by_created_at (comments_of_post s post.1)))
    200.

(** C3 as the specification words it: whoever the other owner's post is,
    the edit request is answered by a redirect to the detail view. *)
Definition edit_by_other_always_redirects : Prop :=
  ∀ s request post_id a ua p,
    user request = AuthenticatedUser a ua →
    posts s !! post_id = Some p →
    post_author p ≠ a →
    serve (create_post request (Some post_id)) s
    = (redirect (url_post_detail post_id), s).

(** Every row a listing response carries, over all its pages. *)
Definition listed (r : HttpResponse) : list AnnotatedPost :=
  match r with
  | render _ (ctx_index page_obj) _
  | render _ (ctx_category page_obj _) _
  | render _ (ctx_profile _ page_obj) _ =>
      paginator_object_list (paginator page_obj)
  | _ => []
  end.

(** [Category.slug] is declared [unique=True]: the slugs of the category
    table are pairwise distinct. *)
Definition slug_unique (s : Store) : Prop :=
  NoDup ((λ r, category_slug r.2) <$> Category_objects s).

#[global] Instance slug_unique_dec s : Decision (slug_unique s).
Proof. unfold slug_unique. apply _. Defined.

(** The last part of C7 as the specification words it: a comment whose
    author is deleted stays, with its author set to null. *)
Definition author_delete_keeps_every_comment : Prop :=
  ∀ s user_pk pk c,
    comments s !! pk = Some c →
    comment_author c = Some user_pk →
    comments (User_delete user_pk s) !! pk = Some (set_comment_author None c).

(** The post [create_post] hands to [post.save()]. *)
Definition post_to_save (request : HttpRequest) (instance : option (Z * Post)) :
    Post :=
  set_post_is_published true
    (set_post_author (default 0 (user_pk (user request)))
       (PostForm_save
          (mkPostForm (POST_data request) (Some (now request)) instance)).2).

(** The rows on the page a listing response shows. *)
Definition shown (r : HttpResponse) : list AnnotatedPost :=
  match r with
  | render _ (ctx_index page_obj) _
  | render _ (ctx_category page_obj _) _
  | render _ (ctx_profile _ page_obj) _ => object_list page_obj
  | _ => []
  end.

(** The comments a detail page carries. *)
Definition detail_comments (r : HttpResponse) : list (Z * Comment) :=
  match r with
  | render _ (ctx_detail _ _ post_comments) _ => post_comments
  | _ => []
  end.

(** The order [.order_by('-pub_date')] leaves annotated rows in. *)
Definition newest_first (a b : AnnotatedPost) : Prop :=
  post_pub_date (row_post b) <= post_pub_date (row_post a).

(** The user model declares [username] unique. *)
Definition username_unique (s : Store) : Prop :=
  NoDup ((λ r, username r.2) <$> User_objects s).

#[global] Instance username_unique_dec s : Decision (username_unique s).
Proof. unfold username_unique. apply _. Defined.

(** Referential integrity, as the foreign keys of models.py require it:
    every key a row holds is the key of a stored row. *)
Definition post_refs_ok (s : Store) (p : Post) : Prop :=
  is_Some (users s !! post_author p)
  ∧ match post_category p with
    | Some c => is_Some (categories s !! c)
    | None => True
    end
  ∧ match post_location p with
    | Some l => is_Some (locations s !! l)
    | None => True
    end.

Definition comment_refs_ok (s : Store) (c : Comment) : Prop :=
  is_Some (posts s !! comment_post c)
  ∧ match comment_author c with
    | Some a => is_Some (users s !! a)
    | None => True
    end.

#[global] Instance post_refs_ok_dec s p : Decision (post_refs_ok s p).
Proof.
  unfold post_refs_ok.
  destruct (post_category p), (post_location p); apply _.
Defined.

#[global] Instance comment_refs_ok_dec s c : Decision (comment_refs_ok s c).
Proof. unfold comment_refs_ok. destruct (comment_author c); apply _. Defined.

Definition integrity (s : Store) : Prop :=
  map_Forall (λ _, post_refs_ok s) (posts s)
  ∧ map_Forall (λ _, comment_refs_ok s) (comments s).

#[global] Instance integrity_dec s : Decision (integrity s).
Proof. unfold integrity. apply _. Defined.

(** The authenticated user of a request is a row of the user table. *)
Definition request_user_stored (s : Store) (request : HttpRequest) : Prop :=
  match user request with
  | AuthenticatedUser pk u => users s !! pk = Some u
  | AnonymousUser => True
  end.

(** ** Sample data *)

Module Sample.

Definition alice : User := mkUser "alice" "Alice" "A" "alice@example.org".
Definition bob : User := mkUser "bob" "Bob" "B" "bob@example.org".

Definition travel : Category := mkCategory "Travel" "Trips" "travel" true 0.
Definition drafts : Category := mkCategory "Drafts" "Hidden" "drafts" false 0.

(** Posts: 10 is public; 11 is dated in the future; 12 is unpublished;
    13 has no category; 14 sits in an unpublished category.  Alice (1)
    owns 10, 11 and 13, Bob (2) owns 12 and 14. *)
Definition hello : Post :=
  mkPost "Hello" "First" 100 None 1 None (Some 1) true 90.
Definition later : Post :=
  mkPost "Later" "Soon" 5000 None 1 None (Some 1) true 95.
Definition hidden : Post :=
  mkPost "Hidden" "Off" 100 None 2 None (Some 1) false 96.
Definition loose : Post :=
  mkPost "Loose" "No category" 100 None 1 None None true 97.
Definition draft : Post :=
  mkPost "Draft" "In drafts" 100 None 2 None (Some 2) true 98.

Definition store : Store :=
  mkStore
    (<[1 := alice]> (<[2 := bob]> ∅))
    (<[1 := travel]> (<[2 := drafts]> ∅))
    ∅
    (<[10 := hello]> (<[11 := later]> (<[12 := hidden]>
      (<[13 := loose]> (<[14 := draft]> ∅)))))
    (<[100 := mkComment "Nice" (Some 2) 10 200]>
     (<[101 := mkComment "Thanks" (Some 1) 10 300]>
      (<[102 := mkComment "Mine" (Some 2) 12 400]> ∅))).

Definition anonymous (t : Z) (m : Method) : HttpRequest :=
  mkRequest AnonymousUser m t None None.

Definition as_alice (t : Z) (m : Method) (d : option QueryDict) :
    HttpRequest :=
  mkRequest (AuthenticatedUser 1 alice) m t None d.

Definition as_bob (t : Z) (m : Method) (d : option QueryDict) :
    HttpRequest :=
  mkRequest (AuthenticatedUser 2 bob) m t None d.

End Sample.

(** * Properties *)

(** Runs the monadic plumbing of a view one layer further. *)
Ltac view_unfold :=
  cbv beta iota zeta delta
    [serve login_required mbind View_bind mret View_ret read_store
     write_store raise get_object_or_404].

(** ** The visibility condition *)

Lemma category__is_published_true s pk p :
  Lookup_holds s (category__is_published true) pk p = true
  ↔ ∃ c cat, post_category p = Some c
             ∧ categories s !! c = Some cat
             ∧ category_is_published cat = true.
Proof.
  simpl. destruct (post_category p) as [c|]; last first.
  { split; [done | by intros (? & ? & ? & _)]. }
  destruct (categories s !! c) as [cat|] eqn:Hc; last first.
  { split; [done | intros (c' & ? & [= <-] & ? & _); congruence]. }
  rewrite bool_decide_eq_true. split.
  - intros Hp. by exists c, cat.
  - intros (c' & cat' & [= <-] & Hc' & Hp). congruence.
Qed.

Lemma q_public_holds s t pk p :
  Q_holds s
    (QAnd (QLookup (pub_date__lte t))
       (QAnd (QLookup (is_published_exact true))
          (QLookup (category__is_published true)))) pk p = true
  ↔ publicly_visible s t p.
Proof.
  unfold publicly_visible. cbn [Q_holds].
  rewrite !andb_true_iff, category__is_published_true.
  cbn [Lookup_holds]. by rewrite !bool_decide_eq_true.
Qed.

Lemma Q_holds_or s a b pk p :
  Q_holds s (QOr a b) pk p = Q_holds s a pk p || Q_holds s b pk p.
Proof. reflexivity. Qed.

Lemma Q_holds_and s a b pk p :
  Q_holds s (QAnd a b) pk p = Q_holds s a pk p && Q_holds s b pk p.
Proof. reflexivity. Qed.

Lemma get_q_available_holds s request own pk p :
  Q_holds s (_get_q_available request own) pk p = true
  ↔ publicly_visible s (now request) p
    ∨ (own = true ∧ authored_by request p).
Proof.
  unfold _get_q_available, authored_by.
  destruct (user request) as [|upk u] eqn:Hu.
  - rewrite q_public_holds. split; [by left |].
    intros [H | (_ & ? & ? & ? & _)]; [done | congruence].
  - destruct own.
    + rewrite Q_holds_or, orb_true_iff, q_public_holds.
      cbn [Q_holds Lookup_holds]. rewrite bool_decide_eq_true. split.
      * intros [H | H]; [by left | right]. split; [done |]. by exists upk, u.
      * intros [H | (_ & pk' & u' & [= <- <-] & H)]; [by left | by right].
    + rewrite q_public_holds. split; [by left |].
      intros [H | (? & _)]; [done | congruence].
Qed.

(** C1.  The condition built by [_get_q_available] holds of a post exactly
    when the post is publicly visible now (publication date reached, post
    published, category published), or, with [own] set and an authenticated
    actor, when the actor is the author.  With [own] unset the condition is
    the same whoever asks. *)
Theorem get_q_available_spec :
  (∀ s request own pk p,
     Q_holds s (_get_q_available request own) pk p = true
     ↔ (post_pub_date p <= now request
        ∧ post_is_published p = true
        ∧ ∃ c cat, post_category p = Some c
                   ∧ categories s !! c = Some cat
                   ∧ category_is_published cat = true)
       ∨ (own = true
          ∧ ∃ pk' u, user request = AuthenticatedUser pk' u
                     ∧ post_author p = pk'))
  ∧ (∀ actor m t pg d,
       _get_q_available (mkRequest actor m t pg d) false
       = _get_q_available (mkRequest AnonymousUser m t pg d) false).
Proof.
  split.
  - intros. apply get_q_available_holds.
  - intros [|pk u] m t pg d; reflexivity.
Qed.

(** ** Lookups by primary key *)

(** A filter that only lets the row under one key through selects at most
    that row. *)
Lemma filter_pk_map_to_list {A} (m : gmap Z A) (P : Z * A → Prop)
    `{!∀ r, Decision (P r)} (k : Z) :
  (∀ i a, m !! i = Some a → P (i, a) → i = k) →
  filter P (map_to_list m) =
    match m !! k with
    | Some a => if decide (P (k, a)) then [(k, a)] else []
    | None => []
    end.
Proof.
  intros Hkey.
  assert (Hnd : NoDup (filter P (map_to_list m)))
    by apply NoDup_filter, NoDup_map_to_list.
  assert (Hin : ∀ r, r ∈ filter P (map_to_list m) ↔ P r ∧ m !! r.1 = Some r.2).
  { intros [i a]. by rewrite list_elem_of_filter, elem_of_map_to_list. }
  destruct (filter P (map_to_list m)) as [|[i a] [|[j b] l]].
  - destruct (m !! k) as [a|] eqn:Hk; [|done].
    destruct (decide (P (k, a))) as [HP|]; [|done].
    exfalso. eapply not_elem_of_nil, Hin. by split.
  - destruct (proj1 (Hin (i, a))) as [HP Hi]; [by left |].
    pose proof (Hkey _ _ Hi HP) as Hik. simpl in *. subst i. rewrite Hi.
    by rewrite decide_True.
  - exfalso.
    destruct (proj1 (Hin (i, a))) as [HPa Hi]; [by left |].
    destruct (proj1 (Hin (j, b))) as [HPb Hj]; [by right; left |].
    pose proof (Hkey _ _ Hi HPa) as Hik. pose proof (Hkey _ _ Hj HPb) as Hjk.
    simpl in *. subst i j. rewrite Hi in Hj. injection Hj as <-.
    apply NoDup_cons in Hnd as [Hnotin _]. apply Hnotin. by left.
Qed.

Lemma available_post_lookup s request post_id :
  available_post s request post_id =
    match posts s !! post_id with
    | Some p =>
        if Q_holds s (_get_q_available request true) post_id p
        then [(post_id, p)] else []
    | None => []
    end.
Proof.
  unfold available_post, filter_posts, Post_objects.
  rewrite (filter_pk_map_to_list _ _ post_id).
  - destruct (posts s !! post_id) as [p|]; [|done].
    rewrite Q_holds_and. cbn [Q_holds Lookup_holds fst snd].
    rewrite bool_decide_eq_true_2 by done. cbn [andb].
    by destruct (Q_holds s (_get_q_available request true) post_id p).
  - intros i a _. rewrite Q_holds_and. cbn [Q_holds Lookup_holds fst snd].
    intros [Hpk _]%Is_true_true%andb_true_iff.
    by apply bool_decide_eq_true in Hpk.
Qed.

(** ** Reading one post *)

Lemma post_detail_run s request post_id :
  post_detail request post_id s =
    match posts s !! post_id with
    | Some p =>
        if Q_holds s (_get_q_available request true) post_id p
        then (Returned (detail_page s request (post_id, p)), s)
        else (Raised Http404, s)
    | None => (Raised Http404, s)
    end.
Proof.
  unfold post_detail, mbind, View_bind, read_store.
  rewrite available_post_lookup.
  destruct (posts s !! post_id) as [p|]; [|done].
  by destruct (Q_holds s (_get_q_available request true) post_id p).
Qed.

Lemma serve_post_detail s request post_id :
  serve (post_detail request post_id) s =
    match posts s !! post_id with
    | Some p =>
        if Q_holds s (_get_q_available request true) post_id p
        then (detail_page s request (post_id, p), s)
        else (page_not_found, s)
    | None => (page_not_found, s)
    end.
Proof.
  unfold serve. rewrite post_detail_run.
  destruct (posts s !! post_id) as [p|]; [|done].
  by destruct (Q_holds s (_get_q_available request true) post_id p).
Qed.

(** C2.  [post_detail] answers 404 unless a post with the requested key
    satisfies the visibility condition (with [own] set) for the actor; the
    lookup never matches more than one row, and a match is answered with the
    detail page.  In particular an anonymous request for a post dated in the
    future is answered 404. *)
Theorem post_detail_404 :
  (∀ s request post_id,
     (serve (post_detail request post_id) s).1 = page_not_found
     ↔ ¬ ∃ p, posts s !! post_id = Some p
              ∧ Q_holds s (_get_q_available request true) post_id p = true)
  ∧ (∀ s request post_id,
       (length (available_post s request post_id) ≤ 1)%nat)
  ∧ (∀ s request post_id p,
       posts s !! post_id = Some p →
       Q_holds s (_get_q_available request true) post_id p = true →
       (serve (post_detail request post_id) s).1
       = detail_page s request (post_id, p))
  ∧ (∀ s request post_id p,
       posts s !! post_id = Some p →
       user request = AnonymousUser →
       now request < post_pub_date p →
       (serve (post_detail request post_id) s).1 = page_not_found).
Proof.
  repeat split.
  - rewrite serve_post_detail. intros H (p & Hp & HQ).
    rewrite Hp, HQ in H. discriminate.
  - rewrite serve_post_detail. intros H.
    destruct (posts s !! post_id) as [p|]; [|done].
    destruct (Q_holds s (_get_q_available request true) post_id p) eqn:HQ;
      [|done].
    exfalso. apply H. by exists p.
  - intros s request post_id. rewrite available_post_lookup.
    destruct (posts s !! post_id) as [p|]; [|simpl; lia].
    destruct (Q_holds s (_get_q_available request true) post_id p);
      simpl; lia.
  - intros s request post_id p Hp HQ.
    by rewrite serve_post_detail, Hp, HQ.
  - intros s request post_id p Hp Hanon Hfuture.
    rewrite serve_post_detail, Hp.
    destruct (Q_holds s (_get_q_available request true) post_id p) eqn:HQ;
      [|done].
    apply get_q_available_holds in HQ
      as [(Hdate & _) | (_ & ? & ? & Hu & _)]; [lia | congruence].
Qed.

(** The scenario of the claim: post 11 is dated 5000, the clock reads 1000. *)
Example post_detail_future_anonymous :
  (serve (post_detail (Sample.anonymous 1000 GET) 11) Sample.store).1
  = page_not_found.
Proof. vm_compute. reflexivity. Qed.

(** ** Editing a post *)

Lemma is_request_user_post request a ua p :
  user request = AuthenticatedUser a ua →
  is_request_user request (Some (post_author p))
  = bool_decide (post_author p = a).
Proof. unfold is_request_user. by intros ->. Qed.

(** Alice asks to edit post 12: Bob's, and unpublished.  The lookup goes
    through the visibility condition, so she is answered 404. *)
Lemma edit_by_other_not_always_redirect : ¬ edit_by_other_always_redirects.
Proof.
  intros H.
  specialize (H Sample.store (Sample.as_alice 1000 GET None) 12 1 Sample.alice
                Sample.hidden
                eq_refl eq_refl ltac:(simpl; lia)).
  vm_compute in H. discriminate.
Qed.

(** C3 (amended).  When an authenticated actor asks to edit a post owned by
    somebody else the store is left as it was; the answer is a redirect to
    the post's detail view if the post is publicly visible, and 404 if it is
    not. *)
Theorem create_post_edit_by_other s request post_id a ua p :
  user request = AuthenticatedUser a ua →
  posts s !! post_id = Some p →
  post_author p ≠ a →
  (serve (create_post request (Some post_id)) s).2 = s
  ∧ (publicly_visible s (now request) p →
     (serve (create_post request (Some post_id)) s).1
     = redirect (url_post_detail post_id))
  ∧ (¬ publicly_visible s (now request) p →
     (serve (create_post request (Some post_id)) s).1 = page_not_found).
Proof.
  intros Hu Hp Hne.
  assert (HQ : Q_holds s (_get_q_available request true) post_id p = true
               ↔ publicly_visible s (now request) p).
  { rewrite get_q_available_holds. split; [|by left].
    intros [H | (_ & a' & ua' & Hu' & Ha)]; [done |]. congruence. }
  unfold create_post. view_unfold. rewrite Hu. cbn [is_authenticated].
  rewrite available_post_lookup, Hp.
  destruct (Q_holds s (_get_q_available request true) post_id p).
  - view_unfold. cbn [snd].
    rewrite (is_request_user_post _ a ua) by done.
    rewrite bool_decide_eq_false_2 by done. cbn.
    split; [done |]. split; [done |].
    intros Hnot. exfalso. by apply Hnot, HQ.
  - cbn. split; [done |]. split; [|done].
    intros Hv. apply HQ in Hv. discriminate.
Qed.

Lemma create_post_edit_by_other_witness :
  (serve (create_post (Sample.as_bob 1000 POST None) (Some 10)) Sample.store).2
  = Sample.store
  ∧ (publicly_visible Sample.store 1000
       Sample.hello →
     (serve (create_post (Sample.as_bob 1000 POST None) (Some 10))
        Sample.store).1
     = redirect (url_post_detail 10))
  ∧ (¬ publicly_visible Sample.store 1000
         Sample.hello →
     (serve (create_post (Sample.as_bob 1000 POST None) (Some 10))
        Sample.store).1
     = page_not_found).
Proof.
  apply (create_post_edit_by_other Sample.store
           (Sample.as_bob 1000 POST None) 10 2 Sample.bob).
  - reflexivity.
  - vm_compute. reflexivity.
  - simpl. lia.
Defined.

(** ** Listings *)

Lemma authored_by_is_request_user request p :
  authored_by request p
  ↔ is_request_user request (Some (post_author p)) = true.
Proof.
  unfold authored_by, is_request_user.
  destruct (user request) as [|pk u].
  - split; [by intros (? & ? & ? & _) | done].
  - rewrite bool_decide_eq_true. split.
    + by intros (? & ? & [= <- <-] & ?).
    + intros H. by exists pk, u.
Qed.

Lemma elem_of_listing s request own qs row :
  row ∈ listing s request own qs
  ↔ ∃ pk p, (pk, p) ∈ qs
            ∧ Q_holds s (_get_q_available request own) pk p = true
            ∧ row = mkAnnotated pk p (length (comments_of_post s pk)).
Proof.
  unfold listing, annotate_comment_count, order_by_pub_date_desc, filter_posts.
  rewrite list_elem_of_fmap. split.
  - intros ([pk p] & -> & Hin).
    rewrite merge_sort_Permutation, list_elem_of_filter in Hin.
    destruct Hin as [HQ Hin]. exists pk, p.
    split; [done |]. split; [|done]. by apply Is_true_true.
  - intros (pk & p & Hin & HQ & ->). exists (pk, p). split; [done |].
    rewrite merge_sort_Permutation, list_elem_of_filter.
    split; [|done]. by apply Is_true_true.
Qed.

Lemma elem_of_slice {A} (l : list A) bottom top x :
  x ∈ slice l bottom top → x ∈ l.
Proof.
  unfold slice. intros H.
  by apply subseteq_take, subseteq_drop in H.
Qed.

(** The page shown is cut out of the listing. *)
Lemma get_page_object_list p n row :
  row ∈ object_list (get_page p n) → row ∈ paginator_object_list p.
Proof. unfold get_page, page. cbn [object_list]. apply elem_of_slice. Qed.

Lemma listed_index s request :
  listed (serve (index request) s).1
  = listing s request false (Post_objects s).
Proof. reflexivity. Qed.

Lemma elem_of_Post_objects s pk p :
  (pk, p) ∈ Post_objects s ↔ posts s !! pk = Some p.
Proof. apply elem_of_map_to_list. Qed.

Lemma listed_category_posts s request slug row :
  row ∈ listed (serve (category_posts request slug) s).1 →
  ∃ category_pk, row ∈ listing s request false (posts_of_category s category_pk).
Proof.
  unfold category_posts. view_unfold.
  destruct (filter _ (Category_objects s)) as [|c [|c' l]]; cbn.
  - by intros ?%not_elem_of_nil.
  - intros H. by exists c.1.
  - by intros ?%not_elem_of_nil.
Qed.

Lemma listed_profile s request name row :
  row ∈ listed (serve (profile request name) s).1 →
  ∃ user_pk, row ∈ listing s request true (posts_of_user s user_pk).
Proof.
  unfold profile. view_unfold.
  destruct (filter _ (User_objects s)) as [|u [|u' l]]; cbn.
  - by intros ?%not_elem_of_nil.
  - intros H. by exists u.1.
  - by intros ?%not_elem_of_nil.
Qed.

(** A row of a listing of stored posts is a stored post that satisfies the
    condition. *)
Lemma listing_row_holds s request own qs row :
  (∀ r, r ∈ qs → r ∈ Post_objects s) →
  row ∈ listing s request own qs →
  posts s !! row_pk row = Some (row_post row)
  ∧ Q_holds s (_get_q_available request own) (row_pk row) (row_post row) = true.
Proof.
  intros Hsub (pk & p & Hin & HQ & ->)%elem_of_listing. cbn.
  split; [|done]. by apply elem_of_Post_objects, Hsub.
Qed.

Lemma posts_of_category_stored s category_pk r :
  r ∈ posts_of_category s category_pk → r ∈ Post_objects s.
Proof. unfold posts_of_category. by intros [_ ?]%list_elem_of_filter. Qed.

Lemma posts_of_user_stored s user_pk r :
  r ∈ posts_of_user s user_pk → r ∈ Post_objects s.
Proof. unfold posts_of_user. by intros [_ ?]%list_elem_of_filter. Qed.

(** ** Posts without a category *)

(** C4.  A post whose category is null satisfies the visibility condition
    for no actor other than its author: it is on no page of the home feed, of
    a category feed or of a profile feed served to such an actor, and its
    detail page is answered 404.  What the public condition admits has a
    category, and that category is published. *)
Theorem null_category_invisible s request pk p :
  posts s !! pk = Some p →
  post_category p = None →
  is_request_user request (Some (post_author p)) = false →
  (∀ own, Q_holds s (_get_q_available request own) pk p = false)
  ∧ (∀ row, row ∈ listed (serve (index request) s).1 → row_pk row ≠ pk)
  ∧ (∀ slug row,
       row ∈ listed (serve (category_posts request slug) s).1 →
       row_pk row ≠ pk)
  ∧ (∀ name row,
       row ∈ listed (serve (profile request name) s).1 → row_pk row ≠ pk)
  ∧ (serve (post_detail request pk) s).1 = page_not_found
  ∧ (∀ pk' p',
       Q_holds s (_get_q_available request false) pk' p' = true →
       ∃ c cat, post_category p' = Some c
                ∧ categories s !! c = Some cat
                ∧ category_is_published cat = true).
Proof.
  intros Hp Hnull Hother.
  assert (HQ : ∀ own, Q_holds s (_get_q_available request own) pk p = false).
  { intros own. apply not_true_is_false.
    intros [(_ & _ & c & cat & Hc & _) | (_ & Ha)]%get_q_available_holds.
    - congruence.
    - apply authored_by_is_request_user in Ha. congruence. }
  assert (Hrow : ∀ own qs row,
            (∀ r, r ∈ qs → r ∈ Post_objects s) →
            row ∈ listing s request own qs → row_pk row ≠ pk).
  { intros own qs row Hsub Hin Heq.
    destruct (listing_row_holds _ _ _ _ _ Hsub Hin) as [Hstored Hholds].
    rewrite Heq, Hp in Hstored. injection Hstored as Hpost.
    rewrite Heq, <- Hpost, HQ in Hholds. discriminate. }
  split; [done |]. split; [|split; [|split; [|split]]].
  - intros row. rewrite listed_index. by apply Hrow.
  - intros slug row (c & Hin)%listed_category_posts.
    eapply Hrow; [|done]. apply posts_of_category_stored.
  - intros name row (u & Hin)%listed_profile.
    eapply Hrow; [|done]. apply posts_of_user_stored.
  - by rewrite serve_post_detail, Hp, HQ.
  - intros pk' p' [(_ & _ & H) | (? & _)]%get_q_available_holds; done.
Qed.

(** Post 13 is Alice's and has no category; Bob asks. *)
Lemma null_category_invisible_witness :
  let request := Sample.as_bob 1000 GET None in
  (∀ own, Q_holds Sample.store (_get_q_available request own) 13 Sample.loose
          = false)
  ∧ (∀ row, row ∈ listed (serve (index request) Sample.store).1 →
            row_pk row ≠ 13)
  ∧ (∀ slug row,
       row ∈ listed (serve (category_posts request slug) Sample.store).1 →
       row_pk row ≠ 13)
  ∧ (∀ name row,
       row ∈ listed (serve (profile request name) Sample.store).1 →
       row_pk row ≠ 13)
  ∧ (serve (post_detail request 13) Sample.store).1 = page_not_found
  ∧ (∀ pk' p',
       Q_holds Sample.store (_get_q_available request false) pk' p' = true →
       ∃ c cat, post_category p' = Some c
                ∧ categories Sample.store !! c = Some cat
                ∧ category_is_published cat = true).
Proof.
  apply (null_category_invisible Sample.store
           (Sample.as_bob 1000 GET None) 13 Sample.loose).
  - vm_compute. reflexivity.
  - reflexivity.
  - vm_compute. reflexivity.
Defined.

(** ** Comments *)

Lemma get_available_post s request post_id :
  get_object_or_404 (available_post s request post_id) s =
    match posts s !! post_id with
    | Some p =>
        if Q_holds s (_get_q_available request true) post_id p
        then (Returned (post_id, p), s)
        else (Raised Http404, s)
    | None => (Raised Http404, s)
    end.
Proof.
  rewrite available_post_lookup.
  destruct (posts s !! post_id) as [p|]; [|done].
  by destruct (Q_holds s (_get_q_available request true) post_id p).
Qed.

(** A view that starts with the post lookup is answered 404, with the store
    untouched, when the lookup finds nothing. *)
Lemma serve_unavailable {A} s request post_id (k : Z * Post → View A) :
  (¬ ∃ p, posts s !! post_id = Some p
          ∧ Q_holds s (_get_q_available request true) post_id p = true) →
  (get_object_or_404 (available_post s request post_id) ≫= k) s
  = (Raised Http404, s).
Proof.
  intros Hnone. unfold mbind, View_bind. rewrite get_available_post.
  destruct (posts s !! post_id) as [p|]; [|done].
  destruct (Q_holds s (_get_q_available request true) post_id p) eqn:HQ;
    [|done].
  exfalso. apply Hnone. by exists p.
Qed.

Lemma serve_available {A} s request post_id p (k : Z * Post → View A) :
  posts s !! post_id = Some p →
  Q_holds s (_get_q_available request true) post_id p = true →
  (get_object_or_404 (available_post s request post_id) ≫= k) s
  = k (post_id, p) s.
Proof.
  intros Hp HQ. unfold mbind, View_bind.
  by rewrite get_available_post, Hp, HQ.
Qed.

(** C5.  For an authenticated actor, adding a comment to a post that does
    not satisfy the visibility condition (with [own] set) for that actor is
    answered 404 and changes nothing; on a post that does, a request whose
    method is not POST is answered by a redirect to the post's detail view
    and changes nothing. *)
Theorem add_comment_guard s request post_id a ua :
  user request = AuthenticatedUser a ua →
  ((¬ ∃ p, posts s !! post_id = Some p
           ∧ Q_holds s (_get_q_available request true) post_id p = true) →
   serve (add_comment request post_id None) s = (page_not_found, s))
  ∧ ((∃ p, posts s !! post_id = Some p
           ∧ Q_holds s (_get_q_available request true) post_id p = true) →
     method request ≠ POST →
     serve (add_comment request post_id None) s
     = (redirect (url_post_detail post_id), s))
  ∧ (method request ≠ POST →
     (serve (add_comment request post_id None) s).2 = s).
Proof.
  intros Hu.
  assert (Hrun : ∀ v : View HttpResponse,
            login_required request v = v).
  { intros v. unfold login_required. by rewrite Hu. }
  assert (H404 : (¬ ∃ p, posts s !! post_id = Some p
           ∧ Q_holds s (_get_q_available request true) post_id p = true) →
   serve (add_comment request post_id None) s = (page_not_found, s)).
  { intros Hnone. unfold add_comment, serve. rewrite Hrun.
    unfold mbind at 1, View_bind at 1, read_store.
    by rewrite serve_unavailable. }
  assert (Hget : (∃ p, posts s !! post_id = Some p
           ∧ Q_holds s (_get_q_available request true) post_id p = true) →
     method request ≠ POST →
     serve (add_comment request post_id None) s
     = (redirect (url_post_detail post_id), s)).
  { intros (p & Hp & HQ) Hm. unfold add_comment, serve. rewrite Hrun.
    unfold mbind at 1, View_bind at 1, read_store.
    rewrite (serve_available _ _ _ p) by done.
    by rewrite bool_decide_eq_false_2. }
  split; [done |]. split; [done |].
  intros Hm.
  destruct (posts s !! post_id) as [p|] eqn:Hp.
  - destruct (Q_holds s (_get_q_available request true) post_id p) eqn:HQ.
    + rewrite Hget; [done | by exists p | done].
    + rewrite H404; [done |]. intros (p' & [= <-] & HQ'). congruence.
  - rewrite H404; [done |]. by intros (p' & ? & _).
Qed.

(** Alice sends a GET to the comment route of post 10, which she may see. *)
Lemma add_comment_guard_witness :
  let request := Sample.as_alice 1000 GET None in
  ((¬ ∃ p, posts Sample.store !! 10 = Some p
           ∧ Q_holds Sample.store (_get_q_available request true) 10 p = true) →
   serve (add_comment request 10 None) Sample.store
   = (page_not_found, Sample.store))
  ∧ ((∃ p, posts Sample.store !! 10 = Some p
           ∧ Q_holds Sample.store (_get_q_available request true) 10 p = true) →
     method request ≠ POST →
     serve (add_comment request 10 None) Sample.store
     = (redirect (url_post_detail 10), Sample.store))
  ∧ (method request ≠ POST →
     (serve (add_comment request 10 None) Sample.store).2 = Sample.store).
Proof.
  apply (add_comment_guard Sample.store (Sample.as_alice 1000 GET None) 10
           1 Sample.alice).
  reflexivity.
Defined.

(** The two answers of the guard on the sample store: Alice may not see
    Bob's unpublished post 12, and may see post 10. *)
Example add_comment_hidden_post :
  serve (add_comment (Sample.as_alice 1000 POST None) 12 None) Sample.store
  = (page_not_found, Sample.store).
Proof. vm_compute. reflexivity. Qed.

Example add_comment_get_redirects :
  serve (add_comment (Sample.as_alice 1000 GET None) 10 None) Sample.store
  = (redirect (url_post_detail 10), Sample.store).
Proof. vm_compute. reflexivity. Qed.

(** ** The category feed *)

Lemma NoDup_fmap_eq {A B} (f : A → B) (l : list A) x y :
  NoDup (f <$> l) → x ∈ l → y ∈ l → f x = f y → x = y.
Proof.
  induction l as [|z l IH]; intros Hnd Hx Hy Hf.
  - by apply not_elem_of_nil in Hx.
  - rewrite fmap_cons in Hnd. apply NoDup_cons in Hnd as [Hz Hnd].
    apply elem_of_cons in Hx as [-> | Hx];
      apply elem_of_cons in Hy as [-> | Hy]; try done.
    + exfalso. apply Hz. rewrite Hf. by apply list_elem_of_fmap_2.
    + exfalso. apply Hz. rewrite <- Hf. by apply list_elem_of_fmap_2.
    + by apply IH.
Qed.

Lemma slug_unique_pk s i j ci cj :
  slug_unique s →
  categories s !! i = Some ci →
  categories s !! j = Some cj →
  category_slug ci = category_slug cj →
  i = j.
Proof.
  intros Hu Hi Hj Hslug.
  assert (Heq : (i, ci) = (j, cj)); [|congruence].
  eapply (NoDup_fmap_eq (λ r : Z * Category, category_slug r.2)); try done.
  - by apply elem_of_map_to_list.
  - by apply elem_of_map_to_list.
Qed.

Lemma category_lookup_none s slug :
  (¬ ∃ pk c, categories s !! pk = Some c
             ∧ category_slug c = slug ∧ category_is_published c = true) →
  filter (λ r : Z * Category,
            category_slug r.2 = slug ∧ category_is_published r.2 = true)
    (Category_objects s) = [].
Proof.
  intros Hnone.
  destruct (filter _ (Category_objects s)) as [|[pk c] l] eqn:Hf; [done |].
  exfalso. apply Hnone. exists pk, c.
  assert (Hin : (pk, c) ∈ filter (λ r : Z * Category,
            category_slug r.2 = slug ∧ category_is_published r.2 = true)
    (Category_objects s)) by (rewrite Hf; by left).
  apply list_elem_of_filter in Hin as [[? ?] Hin].
  by apply elem_of_map_to_list in Hin.
Qed.

Lemma category_lookup_one s slug pk c :
  slug_unique s →
  categories s !! pk = Some c →
  category_slug c = slug →
  category_is_published c = true →
  filter (λ r : Z * Category,
            category_slug r.2 = slug ∧ category_is_published r.2 = true)
    (Category_objects s) = [(pk, c)].
Proof.
  intros Hu Hc Hslug Hpub. unfold Category_objects.
  rewrite (filter_pk_map_to_list _ _ pk).
  - rewrite Hc. by rewrite decide_True.
  - intros i a Hi [Ha _]. cbn in Ha.
    eapply slug_unique_pk; [done.. |]. congruence.
Qed.

(** C6.  With category slugs unique, [category_posts] answers 404 when no
    category has the slug, and when the category that has it is not
    published; otherwise it renders the category feed, whose rows are the
    posts of that category that satisfy the visibility condition with [own]
    unset. *)
Theorem category_posts_spec s request slug :
  slug_unique s →
  ((∀ pk c, categories s !! pk = Some c → category_slug c ≠ slug) →
   serve (category_posts request slug) s = (page_not_found, s))
  ∧ (∀ pk c,
       categories s !! pk = Some c →
       category_slug c = slug →
       category_is_published c = false →
       serve (category_posts request slug) s = (page_not_found, s))
  ∧ (∀ pk c,
       categories s !! pk = Some c →
       category_slug c = slug →
       category_is_published c = true →
       serve (category_posts request slug) s
       = (render "blog/category.html"
            (ctx_category
               (paginate request
                  (listing s request false (posts_of_category s pk)))
               (pk, c))
            200, s)
       ∧ ∀ row,
           row ∈ listed (serve (category_posts request slug) s).1
           ↔ ∃ p, posts s !! row_pk row = Some p
                  ∧ post_category p = Some pk
                  ∧ Q_holds s (_get_q_available request false) (row_pk row) p
                    = true
                  ∧ row = mkAnnotated (row_pk row) p
                            (length (comments_of_post s (row_pk row)))).
Proof.
  intros Hu.
  assert (H404 : (¬ ∃ pk c, categories s !! pk = Some c
             ∧ category_slug c = slug ∧ category_is_published c = true) →
     serve (category_posts request slug) s = (page_not_found, s)).
  { intros Hnone. unfold category_posts. view_unfold.
    by rewrite category_lookup_none. }
  split; [|split].
  - intros Hnone. apply H404. intros (pk & c & Hc & Hslug & _).
    by eapply Hnone.
  - intros pk c Hc Hslug Hpub. apply H404.
    intros (pk' & c' & Hc' & Hslug' & Hpub').
    assert (pk' = pk) as ->
      by (eapply slug_unique_pk; [done.. |]; congruence).
    congruence.
  - intros pk c Hc Hslug Hpub.
    assert (Hrun : serve (category_posts request slug) s
       = (render "blog/category.html"
            (ctx_category
               (paginate request
                  (listing s request false (posts_of_category s pk)))
               (pk, c))
            200, s)).
    { unfold category_posts. view_unfold.
      by rewrite (category_lookup_one s slug pk c). }
    split; [done |]. intros row. rewrite Hrun. cbn [fst listed].
    unfold paginate, get_page, page. cbn [paginator paginator_object_list].
    rewrite elem_of_listing. split.
    + intros (k & p & Hin & HQ & ->). exists p. cbn.
      unfold posts_of_category in Hin.
      apply list_elem_of_filter in Hin as [Hcat Hin].
      by apply elem_of_Post_objects in Hin.
    + intros (p & Hp & Hcat & HQ & Hrow). exists (row_pk row), p.
      split; [|done]. unfold posts_of_category.
      apply list_elem_of_filter. split; [done |].
      by apply elem_of_Post_objects.
Qed.

Lemma category_posts_spec_witness :
  let s := Sample.store in
  let request := Sample.anonymous 1000 GET in
  ((∀ pk c, categories s !! pk = Some c → category_slug c ≠ "travel") →
   serve (category_posts request "travel") s = (page_not_found, s))
  ∧ (∀ pk c,
       categories s !! pk = Some c →
       category_slug c = "travel" →
       category_is_published c = false →
       serve (category_posts request "travel") s = (page_not_found, s))
  ∧ (∀ pk c,
       categories s !! pk = Some c →
       category_slug c = "travel" →
       category_is_published c = true →
       serve (category_posts request "travel") s
       = (render "blog/category.html"
            (ctx_category
               (paginate request
                  (listing s request false (posts_of_category s pk)))
               (pk, c))
            200, s)
       ∧ ∀ row,
           row ∈ listed (serve (category_posts request "travel") s).1
           ↔ ∃ p, posts s !! row_pk row = Some p
                  ∧ post_category p = Some pk
                  ∧ Q_holds s (_get_q_available request false) (row_pk row) p
                    = true
                  ∧ row = mkAnnotated (row_pk row) p
                            (length (comments_of_post s (row_pk row)))).
Proof.
  apply (category_posts_spec Sample.store (Sample.anonymous 1000 GET) "travel").
  apply (bool_decide_unpack _). vm_compute. exact I.
Defined.

(** ** Deleting rows *)

(** Comment 102 is Bob's, on post 12, which is Bob's as well: deleting Bob
    deletes post 12 ([Post.author] is [CASCADE]) and the comment with it. *)
Lemma author_delete_drops_comment_on_own_post :
  ¬ author_delete_keeps_every_comment.
Proof.
  intros H.
  specialize (H Sample.store 2 102 (mkComment "Mine" (Some 2) 12 400)
                eq_refl eq_refl).
  vm_compute in H. discriminate.
Qed.

Lemma Category_delete_posts s category_pk pk :
  posts (Category_delete category_pk s) !! pk
  = (λ p, if bool_decide (post_category p = Some category_pk)
          then set_post_category None p else p) <$> posts s !! pk.
Proof. unfold Category_delete. cbn [posts]. apply lookup_fmap. Qed.

Lemma Post_delete_comments s post_pk pk c :
  comments s !! pk = Some c →
  comments (Post_delete post_pk s) !! pk
  = if bool_decide (comment_post c = post_pk) then None else Some c.
Proof.
  intros Hc. unfold Post_delete. cbn [comments]. case_bool_decide as Hpost.
  - apply map_lookup_filter_None. right. intros c' Hc' Hne. cbn in Hne.
    congruence.
  - by apply map_lookup_filter_Some.
Qed.

Lemma User_delete_comments s user_pk pk c :
  comments s !! pk = Some c →
  comments (User_delete user_pk s) !! pk
  = match posts s !! comment_post c with
    | Some p =>
        if bool_decide (post_author p = user_pk) then None
        else Some (if bool_decide (comment_author c = Some user_pk)
                   then set_comment_author None c else c)
    | None =>
        Some (if bool_decide (comment_author c = Some user_pk)
              then set_comment_author None c else c)
    end.
Proof.
  intros Hc. unfold User_delete. cbn [comments]. rewrite lookup_fmap.
  destruct (posts s !! comment_post c) as [p|] eqn:Hp.
  - case_bool_decide as Hauthor.
    + rewrite (proj2 (map_lookup_filter_None _ _ _)); [done |].
      right. intros c' Hc' Hgone. cbn in Hgone.
      assert (c' = c) as -> by congruence.
      rewrite (proj2 (map_lookup_filter_Some _ _ _ p)) in Hgone; [done |].
      by split.
    + rewrite (proj2 (map_lookup_filter_Some _ _ _ c)); [done |].
      split; [done |]. cbn. apply map_lookup_filter_None. right.
      intros p' Hp' Hauthor'. cbn in Hauthor'. congruence.
  - rewrite (proj2 (map_lookup_filter_Some _ _ _ c)); [done |].
    split; [done |]. cbn. apply map_lookup_filter_None. by left.
Qed.

(** C7 (amended).  Deleting a category keeps every post and sets the
    category of those that referred to it to null; deleting a post deletes
    the comments that belong to it, and no others; deleting a user sets the
    author of that user's comments to null and keeps them, except the
    comments on the user's own posts, which go with those posts. *)
Theorem on_delete_rules :
  (∀ s category_pk pk p,
     posts s !! pk = Some p →
     posts (Category_delete category_pk s) !! pk
     = Some (if bool_decide (post_category p = Some category_pk)
             then set_post_category None p else p)
     ∧ comments (Category_delete category_pk s) = comments s)
  ∧ (∀ s post_pk,
       posts (Post_delete post_pk s) !! post_pk = None
       ∧ ∀ pk c,
           comments s !! pk = Some c →
           comments (Post_delete post_pk s) !! pk
           = if bool_decide (comment_post c = post_pk) then None else Some c)
  ∧ (∀ s user_pk pk c p,
       comments s !! pk = Some c →
       comment_author c = Some user_pk →
       posts s !! comment_post c = Some p →
       comments (User_delete user_pk s) !! pk
       = if bool_decide (post_author p = user_pk) then None
         else Some (set_comment_author None c)).
Proof.
  split; [|split].
  - intros s category_pk pk p Hp. split; [|done].
    by rewrite Category_delete_posts, Hp.
  - intros s post_pk. split.
    + unfold Post_delete. cbn [posts]. apply lookup_delete_eq.
    + intros pk c Hc. by apply Post_delete_comments.
  - intros s user_pk pk c p Hc Hauthor Hp.
    rewrite (User_delete_comments _ _ _ c), Hp by done.
    by rewrite (bool_decide_eq_true_2 (comment_author c = Some user_pk)).
Qed.

(** Deleting Bob: his comment 100 on Alice's post 10 stays, without author;
    his comment 102 on his own post 12 is gone.  Deleting the category
    Travel leaves post 10 in place, without category. *)
Example User_delete_sample :
  comments (User_delete 2 Sample.store) !! 100
  = Some (mkComment "Nice" None 10 200)
  ∧ comments (User_delete 2 Sample.store) !! 102 = None.
Proof. vm_compute. done. Qed.

Example Category_delete_sample :
  posts (Category_delete 1 Sample.store) !! 10
  = Some (set_post_category None Sample.hello).
Proof. vm_compute. done. Qed.

(** ** Reading is idempotent *)

Lemma publicly_visible_clock s t1 t2 p :
  t1 <= t2 →
  ¬ (t1 < post_pub_date p <= t2) →
  publicly_visible s t1 p ↔ publicly_visible s t2 p.
Proof.
  unfold publicly_visible. intros Hle Hwindow.
  split; intros (Hdate & Hrest); (split; [lia | done]).
Qed.

Lemma authored_by_user request1 request2 p :
  user request1 = user request2 →
  authored_by request1 p ↔ authored_by request2 p.
Proof. unfold authored_by. by intros ->. Qed.

(** C8.  [post_detail] writes nothing; and when the same caller asks for the
    same post again right away, the publication date of that post not falling
    between the two clock readings, the second answer on the store the first
    one left is the first answer. *)
Theorem post_detail_read_only s request1 request2 post_id :
  user request1 = user request2 →
  now request1 <= now request2 →
  (∀ p, posts s !! post_id = Some p →
        ¬ (now request1 < post_pub_date p <= now request2)) →
  (serve (post_detail request1 post_id) s).2 = s
  ∧ serve (post_detail request2 post_id)
      (serve (post_detail request1 post_id) s).2
    = serve (post_detail request1 post_id) s.
Proof.
  intros Huser Hclock Hwindow.
  rewrite !serve_post_detail.
  assert (Hsnd : (match posts s !! post_id with
                  | Some p =>
                      if Q_holds s (_get_q_available request1 true) post_id p
                      then (detail_page s request1 (post_id, p), s)
                      else (page_not_found, s)
                  | None => (page_not_found, s)
                  end).2 = s).
  { destruct (posts s !! post_id) as [p|]; [|done].
    by destruct (Q_holds s (_get_q_available request1 true) post_id p). }
  split; [done |]. rewrite Hsnd.
  destruct (posts s !! post_id) as [p|] eqn:Hp; [|done].
  assert (HQ : Q_holds s (_get_q_available request2 true) post_id p
               = Q_holds s (_get_q_available request1 true) post_id p).
  { apply Bool.eq_true_iff_eq. rewrite !get_q_available_holds.
    rewrite (publicly_visible_clock s (now request1) (now request2)) by auto.
    by rewrite (authored_by_user request1 request2). }
  rewrite HQ. unfold detail_page. by rewrite Huser.
Qed.

(** An anonymous visitor reads post 10 at 1000 and again at 1001. *)
Lemma post_detail_read_only_witness :
  (serve (post_detail (Sample.anonymous 1000 GET) 10) Sample.store).2
  = Sample.store
  ∧ serve (post_detail (Sample.anonymous 1001 GET) 10)
      (serve (post_detail (Sample.anonymous 1000 GET) 10) Sample.store).2
    = serve (post_detail (Sample.anonymous 1000 GET) 10) Sample.store.
Proof.
  apply (post_detail_read_only Sample.store (Sample.anonymous 1000 GET)
           (Sample.anonymous 1001 GET) 10).
  - reflexivity.
  - simpl. lia.
  - intros p Hp. vm_compute in Hp. injection Hp as <-. simpl. lia.
Defined.

(** Why the clock matters: post 11 is dated 5000, and is found at 5000 but
    not at 4999. *)
Example post_detail_across_publication :
  (serve (post_detail (Sample.anonymous 4999 GET) 11) Sample.store).1
  = page_not_found
  ∧ (serve (post_detail (Sample.anonymous 5000 GET) 11) Sample.store).1
    = detail_page Sample.store (Sample.anonymous 5000 GET) (11, Sample.later).
Proof. vm_compute. done. Qed.

(** ** Saving a post *)

Lemma PostForm_save_pk form :
  (PostForm_save form).1 = fst <$> post_form_instance form.
Proof. unfold PostForm_save. by destruct (post_form_data form). Qed.

Lemma create_post_form_run s request post_id instance :
  create_post_form request post_id instance s =
    let form := mkPostForm (POST_data request) (Some (now request)) instance in
    if bool_decide (method request = POST) && PostForm_is_valid s form then
      (Returned
         (match post_id with
          | None => redirect (url_profile (request_username request))
          | Some post_id => redirect (url_post_detail post_id)
          end),
       match instance with
       | None =>
           set_posts
             (insert (next_pk (posts s))
                (set_post_created_at (now request)
                   (post_to_save request instance))) s
       | Some r => set_posts (insert r.1 (post_to_save request instance)) s
       end)
    else (Returned (render "blog/create.html" (ctx_create form) 200), s).
Proof.
  unfold create_post_form, post_to_save. view_unfold.
  destruct (bool_decide (method request = POST)
            && PostForm_is_valid s
                 (mkPostForm (POST_data request) (Some (now request)) instance));
    [|done].
  pose proof (PostForm_save_pk
    (mkPostForm (POST_data request) (Some (now request)) instance)) as Hpk.
  destruct (PostForm_save _) as [pk post]. cbn in Hpk. subst pk.
  destruct instance as [r|]; cbn; unfold Post_save; view_unfold;
    by destruct post_id.
Qed.

Lemma post_to_save_fields request instance a ua :
  user request = AuthenticatedUser a ua →
  post_author (post_to_save request instance) = a
  ∧ post_is_published (post_to_save request instance) = true.
Proof. unfold post_to_save. by intros ->. Qed.

Lemma foldr_max_ge (l : list Z) k : k ∈ l → k <= foldr Z.max 0 l.
Proof.
  induction l as [|x l IH]; [by intros ?%not_elem_of_nil |].
  intros [-> | Hin]%elem_of_cons; cbn; [lia |].
  specialize (IH Hin). lia.
Qed.

Lemma next_pk_fresh {A} (m : gmap Z A) : m !! next_pk m = None.
Proof.
  destruct (m !! next_pk m) as [a|] eqn:Hk; [|done]. exfalso.
  assert (Hin : next_pk m ∈ (map_to_list m).*1).
  { apply list_elem_of_fmap. exists (next_pk m, a).
    split; [done |]. by apply elem_of_map_to_list. }
  apply foldr_max_ge in Hin. unfold next_pk in Hin at 1. lia.
Qed.

Lemma create_post_edit_run s request id :
  is_authenticated (user request) = true →
  create_post request (Some id) s =
    match posts s !! id with
    | Some p =>
        if Q_holds s (_get_q_available request true) id p then
          if negb (is_request_user request (Some (post_author p)))
          then (Returned (redirect (url_post_detail id)), s)
          else create_post_form request (Some id) (Some (id, p)) s
        else (Raised Http404, s)
    | None => (Raised Http404, s)
    end.
Proof.
  intros Hauth. unfold create_post, login_required. rewrite Hauth.
  unfold mbind at 1, View_bind at 1, read_store.
  unfold mbind, View_bind. rewrite get_available_post.
  destruct (posts s !! id) as [p|]; [|done].
  destruct (Q_holds s (_get_q_available request true) id p); [|done].
  cbn [snd]. by destruct (negb _).
Qed.

(** The store [create_post] leaves behind: the one it was given, or that
    one with a single post row written. *)
Lemma create_post_saved_store :
  (∀ s request post_id,
     (serve (create_post request post_id) s).2 = s
     ∨ ∃ a ua k p',
         user request = AuthenticatedUser a ua
         ∧ (serve (create_post request post_id) s).2
           = set_posts (insert k p') s
         ∧ post_author p' = a
         ∧ post_is_published p' = true)
  ∧ (∀ s request post_id a ua p,
       user request = AuthenticatedUser a ua →
       method request = POST →
       posts s !! post_id = Some p →
       post_author p = a →
       PostForm_is_valid s
         (mkPostForm (POST_data request) (Some (now request))
            (Some (post_id, p))) = true →
       ∃ p',
         serve (create_post request (Some post_id)) s
         = (redirect (url_post_detail post_id),
            set_posts (insert post_id p') s)
         ∧ post_author p' = a
         ∧ post_is_published p' = true)
  ∧ (∀ s request a ua,
       user request = AuthenticatedUser a ua →
       method request = POST →
       PostForm_is_valid s
         (mkPostForm (POST_data request) (Some (now request)) None) = true →
       ∃ p',
         serve (create_post request None) s
         = (redirect (url_profile (username ua)),
            set_posts (insert (next_pk (posts s)) p') s)
         ∧ posts s !! next_pk (posts s) = None
         ∧ post_author p' = a
         ∧ post_is_published p' = true).
Proof.
  split; [|split].
  - intros s request post_id.
    destruct (user request) as [|a ua] eqn:Hu.
    { left. unfold create_post, login_required. by rewrite Hu. }
    assert (Hform : ∀ instance,
              (serve (create_post_form request post_id instance) s).2 = s
              ∨ ∃ a' ua' k p',
                  AuthenticatedUser a ua = AuthenticatedUser a' ua'
                  ∧ (serve (create_post_form request post_id instance) s).2
                    = set_posts (insert k p') s
                  ∧ post_author p' = a'
                  ∧ post_is_published p' = true).
    { intros instance. unfold serve. rewrite create_post_form_run. cbn zeta.
      destruct (_ && _); [|by left]. right.
      destruct (post_to_save_fields request instance a ua Hu) as [Ha Hpub].
      destruct instance as [r|].
      - by exists a, ua, r.1, (post_to_save request (Some r)).
      - exists a, ua, (next_pk (posts s)),
          (set_post_created_at (now request) (post_to_save request None)).
        by rewrite <- Ha, <- Hpub. }
    destruct post_id as [id|].
    + unfold serve in *. rewrite create_post_edit_run by (by rewrite Hu).
      destruct (posts s !! id) as [p|]; [|by left].
      destruct (Q_holds s (_get_q_available request true) id p); [|by left].
      destruct (negb _); [by left |]. apply Hform.
    + unfold create_post, login_required. rewrite Hu. apply Hform.
  - intros s request post_id a ua p Hu Hm Hp Ha Hvalid.
    exists (post_to_save request (Some (post_id, p))).
    destruct (post_to_save_fields request (Some (post_id, p)) a ua Hu)
      as [Ha' Hpub].
    split; [|done].
    assert (HQ : Q_holds s (_get_q_available request true) post_id p = true).
    { apply get_q_available_holds. right. split; [done |]. by exists a, ua. }
    unfold serve. rewrite create_post_edit_run by (by rewrite Hu).
    rewrite Hp, HQ, (is_request_user_post _ a ua) by done.
    rewrite bool_decide_eq_true_2 by done. cbn [negb].
    rewrite create_post_form_run. cbn zeta.
    by rewrite Hvalid, bool_decide_eq_true_2.
  - intros s request a ua Hu Hm Hvalid.
    exists (set_post_created_at (now request) (post_to_save request None)).
    destruct (post_to_save_fields request None a ua Hu) as [Ha' Hpub].
    split; [|split; [apply next_pk_fresh | done]].
    unfold create_post, login_required. rewrite Hu. cbn [is_authenticated].
    unfold serve. rewrite create_post_form_run. cbn zeta.
    rewrite Hvalid, bool_decide_eq_true_2 by done. cbn.
    unfold request_username. by rewrite Hu.
Qed.

(** C9.  Every post row that [create_post] writes is published and has
    the requesting actor as author: a row of the post table afterwards is a
    row that was there before, or such a row.  The owner's valid POST to the
    edit route leaves, under the post's key, a post that is published and
    theirs, whatever its published flag was before (so an unpublished post
    is published again), and leaves the other posts alone; a valid POST to
    the create route leaves such a post under a key that was free. *)
Theorem create_post_save_publishes :
  (∀ s request post_id k p',
     posts (serve (create_post request post_id) s).2 !! k = Some p' →
     posts s !! k = Some p'
     ∨ ∃ a ua,
         user request = AuthenticatedUser a ua
         ∧ post_author p' = a
         ∧ post_is_published p' = true)
  ∧ (∀ s request post_id a ua p,
       user request = AuthenticatedUser a ua →
       method request = POST →
       posts s !! post_id = Some p →
       post_author p = a →
       PostForm_is_valid s
         (mkPostForm (POST_data request) (Some (now request))
            (Some (post_id, p))) = true →
       ∃ p',
         (serve (create_post request (Some post_id)) s).1
         = redirect (url_post_detail post_id)
         ∧ posts (serve (create_post request (Some post_id)) s).2 !! post_id
           = Some p'
         ∧ post_author p' = a
         ∧ post_is_published p' = true
         ∧ ∀ k, k ≠ post_id →
                posts (serve (create_post request (Some post_id)) s).2 !! k
                = posts s !! k)
  ∧ (∀ s request a ua,
       user request = AuthenticatedUser a ua →
       method request = POST →
       PostForm_is_valid s
         (mkPostForm (POST_data request) (Some (now request)) None) = true →
       ∃ p',
         (serve (create_post request None) s).1
         = redirect (url_profile (username ua))
         ∧ posts s !! next_pk (posts s) = None
         ∧ posts (serve (create_post request None) s).2
             !! next_pk (posts s) = Some p'
         ∧ post_author p' = a
         ∧ post_is_published p' = true
         ∧ ∀ k, k ≠ next_pk (posts s) →
                posts (serve (create_post request None) s).2 !! k
                = posts s !! k).
Proof.
  destruct create_post_saved_store as (Hany & Hedit & Hcreate).
  split; [|split].
  - intros s request post_id k p' Hk.
    destruct (Hany s request post_id)
      as [Hsame | (a & ua & k0 & p0 & Hu & Hsaved & Ha & Hpub)].
    + left. by rewrite Hsame in Hk.
    + rewrite Hsaved in Hk. cbn [posts set_posts] in Hk.
      rewrite lookup_insert in Hk. case_decide as Hkey.
      * injection Hk as <-. right. by exists a, ua.
      * by left.
  - intros s request post_id a ua p Hu Hm Hp Ha Hvalid.
    destruct (Hedit s request post_id a ua p Hu Hm Hp Ha Hvalid)
      as (p' & Hrun & Ha' & Hpub).
    exists p'. rewrite Hrun. cbn [fst snd posts set_posts].
    split; [done |]. split; [apply lookup_insert_eq |].
    split; [done |]. split; [done |].
    intros k Hk. by apply lookup_insert_ne.
  - intros s request a ua Hu Hm Hvalid.
    destruct (Hcreate s request a ua Hu Hm Hvalid)
      as (p' & Hrun & Hfresh & Ha' & Hpub).
    exists p'. rewrite Hrun. cbn [fst snd posts set_posts].
    split; [done |]. split; [done |]. split; [apply lookup_insert_eq |].
    split; [done |]. split; [done |].
    intros k Hk. by apply lookup_insert_ne.
Qed.

(** Bob's post 12 is unpublished.  He edits its title; the saved post is
    published again. *)
Example create_post_republishes :
  let d := mkQueryDict "Shown" "On" (Some 100) None false None (Some 1) in
  let r := serve (create_post (Sample.as_bob 1000 POST (Some d)) (Some 12))
             Sample.store in
  post_is_published Sample.hidden = false
  ∧ r.1 = redirect (url_post_detail 12)
  ∧ posts r.2 !! 12
    = Some (mkPost "Shown" "On" 100 None 2 None (Some 1) true 96).
Proof. vm_compute. done. Qed.

(** ** Editing and deleting a comment *)

Lemma comment_by_id s comment_id :
  filter (λ r : Z * Comment, r.1 = comment_id) (Comment_objects s) =
    match comments s !! comment_id with
    | Some c => [(comment_id, c)]
    | None => []
    end.
Proof.
  unfold Comment_objects. rewrite (filter_pk_map_to_list _ _ comment_id).
  - destruct (comments s !! comment_id); [|done]. by rewrite decide_True.
  - by intros i a _ Hi.
Qed.

Lemma comment_of_post_by_id s post_pk comment_id :
  filter (λ r : Z * Comment, comment_post r.2 = post_pk ∧ r.1 = comment_id)
    (Comment_objects s) =
    match comments s !! comment_id with
    | Some c =>
        if bool_decide (comment_post c = post_pk) then [(comment_id, c)]
        else []
    | None => []
    end.
Proof.
  unfold Comment_objects. rewrite (filter_pk_map_to_list _ _ comment_id).
  - destruct (comments s !! comment_id) as [c|]; [|done].
    case_bool_decide.
    + by rewrite decide_True.
    + rewrite decide_False; [done |]. by intros [? _].
  - by intros i a _ [_ Hi].
Qed.

Lemma is_request_user_comment request a ua c :
  user request = AuthenticatedUser a ua →
  comment_author c = Some a →
  is_request_user request (comment_author c) = true.
Proof.
  unfold is_request_user. intros -> ->. by apply bool_decide_eq_true_2.
Qed.

(** C10.  The actor may see post [post_id] and wrote comment [comment_id].
    Editing through this pair works on the comment whatever post the comment
    belongs to: a valid POST saves the new text on it (its post link is left
    alone), any other request shows its edit form.  Deleting through the same
    pair is answered 404 unless the comment belongs to the post. *)
Theorem comment_edit_ignores_post s request post_id comment_id a ua p c :
  user request = AuthenticatedUser a ua →
  posts s !! post_id = Some p →
  Q_holds s (_get_q_available request true) post_id p = true →
  comments s !! comment_id = Some c →
  comment_author c = Some a →
  let form := mkCommentForm (POST_data request) None (Some (comment_id, c)) in
  (method request = POST →
   CommentForm_is_valid form = true →
   ∃ d, POST_data request = Some d
        ∧ serve (add_comment request post_id (Some comment_id)) s
          = (redirect (url_post_detail post_id),
             set_comments
               (insert comment_id (set_comment_text (data_text d) c)) s))
  ∧ (¬ (method request = POST ∧ CommentForm_is_valid form = true) →
     serve (add_comment request post_id (Some comment_id)) s
     = (render "blog/comment.html"
          (ctx_comment (Some form) (comment_id, c)) 200, s))
  ∧ (comment_post c ≠ post_id →
     serve (delete_comment request post_id comment_id) s
     = (page_not_found, s))
  ∧ (comment_post c = post_id →
     method request = POST →
     serve (delete_comment request post_id comment_id) s
     = (redirect (url_post_detail post_id), Comment_delete comment_id s)).
Proof.
  intros Hu Hp HQ Hc Ha form.
  assert (Hlogin : ∀ v : View HttpResponse, login_required request v = v).
  { intros v. unfold login_required. by rewrite Hu. }
  assert (Hedit : serve (add_comment request post_id (Some comment_id)) s =
            if bool_decide (method request = POST) && CommentForm_is_valid form
            then (redirect (url_post_detail post_id),
                  set_comments (insert comment_id (CommentForm_save form).2) s)
            else (render "blog/comment.html"
                    (ctx_comment (Some form) (comment_id, c)) 200, s)).
  { unfold add_comment, serve. rewrite Hlogin.
    unfold mbind at 1, View_bind at 1, read_store.
    rewrite (serve_available _ _ _ p) by done.
    rewrite comment_by_id, Hc. view_unfold. cbn [snd].
    rewrite (is_request_user_comment _ a ua) by done. cbn [negb].
    fold form.
    destruct (bool_decide (method request = POST)
              && CommentForm_is_valid form); [|done].
    unfold CommentForm_save, Comment_save, form. cbn.
    by destruct (POST_data request). }
  assert (Hdelete : serve (delete_comment request post_id comment_id) s =
            if bool_decide (comment_post c = post_id) then
              if bool_decide (method request = POST)
              then (redirect (url_post_detail post_id),
                    Comment_delete comment_id s)
              else (render "blog/comment.html"
                      (ctx_comment None (comment_id, c)) 200, s)
            else (page_not_found, s)).
  { unfold delete_comment, serve. rewrite Hlogin.
    unfold mbind at 1, View_bind at 1, read_store.
    rewrite (serve_available _ _ _ p) by done. cbn [fst].
    rewrite comment_of_post_by_id, Hc.
    destruct (bool_decide (comment_post c = post_id)); view_unfold; [|done].
    cbn [snd fst].
    rewrite (is_request_user_comment _ a ua) by done. cbn [negb].
    by destruct (bool_decide (method request = POST)). }
  split; [|split; [|split]].
  - intros Hm Hvalid. rewrite Hedit, Hvalid, bool_decide_eq_true_2 by done.
    cbn [andb]. unfold CommentForm_is_valid, CommentForm_save, form in *.
    cbn in *. destruct (POST_data request) as [d|]; [|done]. by exists d.
  - intros Hnot. rewrite Hedit.
    destruct (bool_decide (method request = POST)) eqn:Hm;
      destruct (CommentForm_is_valid form) eqn:Hvalid; try done.
    exfalso. apply Hnot. by apply bool_decide_eq_true in Hm.
  - intros Hne. by rewrite Hdelete, bool_decide_eq_false_2.
  - intros Heq Hm. by rewrite Hdelete, !bool_decide_eq_true_2.
Qed.

(** Alice wrote comment 101 on post 10.  She edits it, and then tries to
    delete it, through the routes of her post 13. *)
Lemma comment_edit_ignores_post_witness :
  let s := Sample.store in
  let request :=
    Sample.as_alice 1000 POST
      (Some (mkQueryDict "" "Edited" None None false None None)) in
  let c := mkComment "Thanks" (Some 1) 10 300 in
  let form := mkCommentForm (POST_data request) None (Some (101, c)) in
  (method request = POST →
   CommentForm_is_valid form = true →
   ∃ d, POST_data request = Some d
        ∧ serve (add_comment request 13 (Some 101)) s
          = (redirect (url_post_detail 13),
             set_comments (insert 101 (set_comment_text (data_text d) c)) s))
  ∧ (¬ (method request = POST ∧ CommentForm_is_valid form = true) →
     serve (add_comment request 13 (Some 101)) s
     = (render "blog/comment.html" (ctx_comment (Some form) (101, c)) 200, s))
  ∧ (comment_post c ≠ 13 →
     serve (delete_comment request 13 101) s = (page_not_found, s))
  ∧ (comment_post c = 13 →
     method request = POST →
     serve (delete_comment request 13 101) s
     = (redirect (url_post_detail 13), Comment_delete 101 s)).
Proof.
  apply (comment_edit_ignores_post Sample.store
           (Sample.as_alice 1000 POST
              (Some (mkQueryDict "" "Edited" None None false None None)))
           13 101 1 Sample.alice Sample.loose
           (mkComment "Thanks" (Some 1) 10 300)).
  - reflexivity.
  - vm_compute. reflexivity.
  - vm_compute. reflexivity.
  - vm_compute. reflexivity.
  - reflexivity.
Defined.

Example comment_edit_other_post :
  let request :=
    Sample.as_alice 1000 POST
      (Some (mkQueryDict "" "Edited" None None false None None)) in
  comments (serve (add_comment request 13 (Some 101)) Sample.store).2 !! 101
  = Some (mkComment "Edited" (Some 1) 10 300)
  ∧ serve (delete_comment request 13 101) Sample.store
    = (page_not_found, Sample.store).
Proof. vm_compute. done. Qed.

(** A valid POST on a post the actor may see stores a new comment, by the
    actor, on that post, stamped with the time of the request. *)
Lemma add_comment_creates s request post_id a ua p d :
  user request = AuthenticatedUser a ua →
  posts s !! post_id = Some p →
  Q_holds s (_get_q_available request true) post_id p = true →
  method request = POST →
  POST_data request = Some d →
  CommentForm_is_valid (mkCommentForm (Some d) None None) = true →
  serve (add_comment request post_id None) s
  = (redirect (url_post_detail post_id),
     set_comments
       (insert (next_pk (comments s))
          (mkComment (data_text d) (Some a) post_id (now request))) s).
Proof.
  intros Hu Hp HQ Hm Hd Hvalid.
  unfold add_comment, serve, login_required. rewrite Hu.
  cbn [is_authenticated].
  unfold mbind at 1, View_bind at 1, read_store.
  rewrite (serve_available _ _ _ p) by done.
  rewrite bool_decide_eq_true_2 by done. cbn [negb].
  rewrite Hd, Hvalid. unfold CommentForm_save, Comment_save. by view_unfold.
Qed.

Example add_comment_sample :
  let request :=
    Sample.as_alice 1000 POST
      (Some (mkQueryDict "" "Hello Bob" None None false None None)) in
  comments (serve (add_comment request 10 None) Sample.store).2 !! 103
  = Some (mkComment "Hello Bob" (Some 1) 10 1000).
Proof. vm_compute. done. Qed.

(** * Further properties of the views *)

(** ** The home feed *)

#[global] Instance pub_date_desc_total : Total pub_date_desc.
Proof. intros a b. unfold pub_date_desc. lia. Qed.

#[global] Instance pub_date_desc_trans : Transitive pub_date_desc.
Proof. intros a b c. unfold pub_date_desc. lia. Qed.

Lemma listing_newest_first s request own qs :
  StronglySorted newest_first (listing s request own qs).
Proof.
  unfold listing, annotate_comment_count, order_by_pub_date_desc.
  eapply StronglySorted_fmap; [|apply StronglySorted_merge_sort; apply _].
  by intros [i a] [j b].
Qed.

(** X1.  The home feed carries exactly the stored posts that are publicly
    visible at the time of the request, each with the number of its comments,
    whoever asks: the author's own unpublished or future posts are not on
    it.  Serving it changes nothing. *)
Theorem index_rows s request :
  (∀ row,
     row ∈ listed (serve (index request) s).1
     ↔ ∃ pk p, posts s !! pk = Some p
               ∧ publicly_visible s (now request) p
               ∧ row = mkAnnotated pk p (length (comments_of_post s pk)))
  ∧ (serve (index request) s).2 = s.
Proof.
  split; [|done]. intros row. rewrite listed_index, elem_of_listing.
  split.
  - intros (pk & p & Hin & HQ & ->). exists pk, p.
    apply elem_of_Post_objects in Hin.
    apply get_q_available_holds in HQ as [Hv | [? _]]; done.
  - intros (pk & p & Hp & Hv & ->). exists pk, p.
    split; [by apply elem_of_Post_objects |]. split; [|done].
    apply get_q_available_holds. by left.
Qed.

(** X2.  Every listing a view serves is ordered newest first: a row is
    never older than any row after it. *)
Theorem feeds_newest_first s request :
  StronglySorted newest_first (listed (serve (index request) s).1)
  ∧ (∀ slug,
       StronglySorted newest_first
         (listed (serve (category_posts request slug) s).1))
  ∧ (∀ name,
       StronglySorted newest_first
         (listed (serve (profile request name) s).1)).
Proof.
  split; [|split].
  - rewrite listed_index. apply listing_newest_first.
  - intros slug. unfold category_posts. view_unfold.
    destruct (filter _ (Category_objects s)) as [|c [|c' l]]; cbn;
      try constructor.
    apply listing_newest_first.
  - intros name. unfold profile. view_unfold.
    destruct (filter _ (User_objects s)) as [|u [|u' l]]; cbn;
      try constructor.
    apply listing_newest_first.
Qed.

(** ** Pages *)

Lemma page_object_list_length p n :
  0 <= per_page p →
  (length (object_list (page p n)) ≤ Z.to_nat (per_page p))%nat.
Proof.
  intros Hper. unfold page, slice. cbn [object_list].
  etrans; [apply firstn_le_length |].
  generalize ((n - 1) * per_page p), (count p). intros b c.
  case_bool_decide; lia.
Qed.

Lemma get_page_first p :
  0 < per_page p →
  object_list (get_page p None)
  = take (Z.to_nat (per_page p)) (paginator_object_list p).
Proof.
  intros Hper. unfold get_page, validate_number, page, slice.
  cbn [object_list]. rewrite Z.sub_diag, Z.mul_0_l, Z.add_0_l.
  change (Z.to_nat 0) with 0%nat. rewrite drop_0, Z.sub_0_r.
  case_bool_decide as Hcount; [|done].
  unfold count in *. rewrite Nat2Z.id, firstn_all.
  symmetry. apply take_ge. lia.
Qed.

Lemma shown_paginate request rows :
  (length (object_list (paginate request rows)) ≤ 10)%nat
  ∧ (∀ row, row ∈ object_list (paginate request rows) → row ∈ rows)
  ∧ (GET_page request = None →
     object_list (paginate request rows) = take 10 rows).
Proof.
  unfold paginate. split; [|split].
  - unfold get_page. by apply (page_object_list_length (mkPaginator rows 10)).
  - intros row Hrow. by apply get_page_object_list in Hrow.
  - intros ->. by rewrite get_page_first.
Qed.

(** X3.  A page of the home feed, of a category feed or of a profile feed
    shows at most ten rows, all of them rows of the feed; without a page
    number it shows the first ten. *)
Theorem feeds_page_size s request :
  ((length (shown (serve (index request) s).1) ≤ 10)%nat
   ∧ (∀ row, row ∈ shown (serve (index request) s).1 →
             row ∈ listed (serve (index request) s).1)
   ∧ (GET_page request = None →
      shown (serve (index request) s).1
      = take 10 (listed (serve (index request) s).1)))
  ∧ (∀ slug,
       (length (shown (serve (category_posts request slug) s).1) ≤ 10)%nat
       ∧ (∀ row, row ∈ shown (serve (category_posts request slug) s).1 →
                 row ∈ listed (serve (category_posts request slug) s).1)
       ∧ (GET_page request = None →
          shown (serve (category_posts request slug) s).1
          = take 10 (listed (serve (category_posts request slug) s).1)))
  ∧ (∀ name,
       (length (shown (serve (profile request name) s).1) ≤ 10)%nat
       ∧ (∀ row, row ∈ shown (serve (profile request name) s).1 →
                 row ∈ listed (serve (profile request name) s).1)
       ∧ (GET_page request = None →
          shown (serve (profile request name) s).1
          = take 10 (listed (serve (profile request name) s).1))).
Proof.
  assert (Hempty : (length (@nil AnnotatedPost) ≤ 10)%nat
                   ∧ (∀ row : AnnotatedPost, row ∈ [] → row ∈ [])
                   ∧ (GET_page request = None →
                      @nil AnnotatedPost = take 10 [])).
  { split; [simpl; lia | done]. }
  split; [|split].
  - apply (shown_paginate request (listing s request false (Post_objects s))).
  - intros slug. unfold category_posts. view_unfold.
    destruct (filter _ (Category_objects s)) as [|c [|c' l]]; cbn.
    + apply Hempty.
    + apply (shown_paginate request).
    + apply Hempty.
  - intros name. unfold profile. view_unfold.
    destruct (filter _ (User_objects s)) as [|u [|u' l]]; cbn.
    + apply Hempty.
    + apply (shown_paginate request).
    + apply Hempty.
Qed.

(** ** The profile feed *)

Lemma username_unique_pk s i j ui uj :
  username_unique s →
  users s !! i = Some ui →
  users s !! j = Some uj →
  username ui = username uj →
  i = j.
Proof.
  intros Hu Hi Hj Hname.
  assert (Heq : (i, ui) = (j, uj)); [|congruence].
  eapply (NoDup_fmap_eq (λ r : Z * User, username r.2)); try done.
  - by apply elem_of_map_to_list.
  - by apply elem_of_map_to_list.
Qed.

Lemma user_lookup_none s name :
  (∀ pk u, users s !! pk = Some u → username u ≠ name) →
  filter (λ r : Z * User, username r.2 = name) (User_objects s) = [].
Proof.
  intros Hnone.
  destruct (filter _ (User_objects s)) as [|[pk u] l] eqn:Hf; [done |].
  exfalso.
  assert (Hin : (pk, u) ∈ filter (λ r : Z * User, username r.2 = name)
                  (User_objects s)) by (rewrite Hf; by left).
  apply list_elem_of_filter in Hin as [Hname Hin].
  apply elem_of_map_to_list in Hin. by eapply Hnone.
Qed.

Lemma user_lookup_one s name pk u :
  username_unique s →
  users s !! pk = Some u →
  username u = name →
  filter (λ r : Z * User, username r.2 = name) (User_objects s) = [(pk, u)].
Proof.
  intros Hu Hpk Hname. unfold User_objects.
  rewrite (filter_pk_map_to_list _ _ pk).
  - rewrite Hpk. by rewrite decide_True.
  - intros i a Hi Ha. cbn in Ha.
    eapply username_unique_pk; [done.. |]. congruence.
Qed.

Lemma profile_run s request name pk u :
  username_unique s →
  users s !! pk = Some u →
  username u = name →
  serve (profile request name) s
  = (render "blog/profile.html"
       (ctx_profile (pk, u)
          (paginate request (listing s request true (posts_of_user s pk))))
       200, s).
Proof.
  intros Hu Hpk Hname. unfold profile. view_unfold.
  by rewrite (user_lookup_one s name pk u).
Qed.

Lemma profile_listing_rows s request pk row :
  row ∈ listing s request true (posts_of_user s pk)
  ↔ ∃ p, posts s !! row_pk row = Some p
         ∧ post_author p = pk
         ∧ (publicly_visible s (now request) p ∨ authored_by request p)
         ∧ row = mkAnnotated (row_pk row) p
                   (length (comments_of_post s (row_pk row))).
Proof.
  rewrite elem_of_listing. split.
  - intros (k & p & Hin & HQ & ->). exists p. cbn.
    unfold posts_of_user in Hin.
    apply list_elem_of_filter in Hin as [Hauthor Hin].
    apply elem_of_Post_objects in Hin.
    apply get_q_available_holds in HQ as [Hv | [_ Ha]]; auto.
  - intros (p & Hp & Hauthor & Hv & Hrow). exists (row_pk row), p.
    split; [|split; [|done]].
    + unfold posts_of_user. apply list_elem_of_filter. split; [done |].
      by apply elem_of_Post_objects.
    + apply get_q_available_holds. destruct Hv; [by left | by right].
Qed.

(** X4.  With usernames unique, [profile] answers 404 (and changes nothing)
    when no user has the name; otherwise it renders that user's profile, whose
    rows are the user's posts that are publicly visible or written by the
    actor. *)
Theorem profile_spec s request name :
  username_unique s →
  ((∀ pk u, users s !! pk = Some u → username u ≠ name) →
   serve (profile request name) s = (page_not_found, s))
  ∧ (∀ pk u,
       users s !! pk = Some u →
       username u = name →
       serve (profile request name) s
       = (render "blog/profile.html"
            (ctx_profile (pk, u)
               (paginate request
                  (listing s request true (posts_of_user s pk))))
            200, s)
       ∧ ∀ row,
           row ∈ listed (serve (profile request name) s).1
           ↔ ∃ p, posts s !! row_pk row = Some p
                  ∧ post_author p = pk
                  ∧ (publicly_visible s (now request) p
                     ∨ authored_by request p)
                  ∧ row = mkAnnotated (row_pk row) p
                            (length (comments_of_post s (row_pk row)))).
Proof.
  intros Hu. split.
  - intros Hnone. unfold profile. view_unfold.
    by rewrite user_lookup_none.
  - intros pk u Hpk Hname. split; [by apply profile_run |].
    intros row. rewrite (profile_run s request name pk u) by done.
    apply profile_listing_rows.
Qed.

Lemma profile_spec_witness :
  let s := Sample.store in
  let request := Sample.as_alice 1000 GET None in
  ((∀ pk u, users s !! pk = Some u → username u ≠ "alice") →
   serve (profile request "alice") s = (page_not_found, s))
  ∧ (∀ pk u,
       users s !! pk = Some u →
       username u = "alice" →
       serve (profile request "alice") s
       = (render "blog/profile.html"
            (ctx_profile (pk, u)
               (paginate request
                  (listing s request true (posts_of_user s pk))))
            200, s)
       ∧ ∀ row,
           row ∈ listed (serve (profile request "alice") s).1
           ↔ ∃ p, posts s !! row_pk row = Some p
                  ∧ post_author p = pk
                  ∧ (publicly_visible s (now request) p
                     ∨ authored_by request p)
                  ∧ row = mkAnnotated (row_pk row) p
                            (length (comments_of_post s (row_pk row)))).
Proof.
  apply (profile_spec Sample.store (Sample.as_alice 1000 GET None) "alice").
  apply (bool_decide_unpack _). vm_compute. exact I.
Defined.

(** X5.  On their own profile the owner finds every post they wrote,
    unpublished, future-dated and uncategorised ones included; anybody else
    finds only those that are publicly visible. *)
Theorem profile_own_and_foreign s request name pk u :
  username_unique s →
  users s !! pk = Some u →
  username u = name →
  (is_request_user request (Some pk) = true →
   ∀ k p, posts s !! k = Some p → post_author p = pk →
          mkAnnotated k p (length (comments_of_post s k))
          ∈ listed (serve (profile request name) s).1)
  ∧ (is_request_user request (Some pk) = false →
     ∀ row, row ∈ listed (serve (profile request name) s).1 →
            publicly_visible s (now request) (row_post row)).
Proof.
  intros Hu Hpk Hname. rewrite (profile_run s request name pk u) by done.
  cbn [fst listed]. unfold paginate, get_page, page.
  cbn [paginator paginator_object_list]. split.
  - intros Hown k p Hp Hauthor. apply profile_listing_rows. exists p. cbn.
    split; [done |]. split; [done |]. split; [|done]. right.
    apply authored_by_is_request_user. by rewrite Hauthor.
  - intros Hother row (p & Hp & Hauthor & Hv & ->)%profile_listing_rows. cbn.
    destruct Hv as [Hv | Ha]; [done |].
    apply authored_by_is_request_user in Ha. rewrite Hauthor in Ha.
    congruence.
Qed.

Lemma profile_own_and_foreign_witness :
  let s := Sample.store in
  let request := Sample.as_alice 1000 GET None in
  (is_request_user request (Some 1) = true →
   ∀ k p, posts s !! k = Some p → post_author p = 1 →
          mkAnnotated k p (length (comments_of_post s k))
          ∈ listed (serve (profile request "alice") s).1)
  ∧ (is_request_user request (Some 1) = false →
     ∀ row, row ∈ listed (serve (profile request "alice") s).1 →
            publicly_visible s (now request) (row_post row)).
Proof.
  apply (profile_own_and_foreign Sample.store
           (Sample.as_alice 1000 GET None) "alice" 1 Sample.alice).
  - apply (bool_decide_unpack _). vm_compute. exact I.
  - vm_compute. reflexivity.
  - reflexivity.
Defined.

(** Alice's profile as she sees it (three posts) and as Bob sees it (one). *)
Example profile_sample :
  row_pk <$> listed (serve (profile (Sample.as_alice 1000 GET None) "alice")
                       Sample.store).1 = [11; 10; 13]
  ∧ row_pk <$> listed (serve (profile (Sample.as_bob 1000 GET None) "alice")
                         Sample.store).1 = [10].
Proof. vm_compute. done. Qed.

(** ** The detail page *)

#[global] Instance created_at_asc_total : Total created_at_asc.
Proof. intros a b. unfold created_at_asc. lia. Qed.

#[global] Instance created_at_asc_trans : Transitive created_at_asc.
Proof. intros a b c. unfold created_at_asc. lia. Qed.

Lemma elem_of_post_comments s post_pk r :
  r ∈ order_by_created_at (comments_of_post s post_pk)
  ↔ comments s !! r.1 = Some r.2 ∧ comment_post r.2 = post_pk.
Proof.
  unfold order_by_created_at, comments_of_post, Comment_objects.
  rewrite merge_sort_Permutation, list_elem_of_filter.
  destruct r as [k c]. rewrite elem_of_map_to_list. cbn. tauto.
Qed.

(** X6.  The comments on a detail page are ordered oldest first, and they
    are the comments of the post shown: none of another post, and none of
    this post left out. *)
Theorem post_detail_comments s request post_id :
  StronglySorted created_at_asc
    (detail_comments (serve (post_detail request post_id) s).1)
  ∧ (∀ r, r ∈ detail_comments (serve (post_detail request post_id) s).1 →
          comments s !! r.1 = Some r.2 ∧ comment_post r.2 = post_id)
  ∧ (∀ p k c,
       posts s !! post_id = Some p →
       Q_holds s (_get_q_available request true) post_id p = true →
       comments s !! k = Some c →
       comment_post c = post_id →
       (k, c) ∈ detail_comments (serve (post_detail request post_id) s).1).
Proof.
  assert (Hnone : StronglySorted created_at_asc
                    (detail_comments page_not_found)
                  ∧ (∀ r, r ∈ detail_comments page_not_found →
                          comments s !! r.1 = Some r.2
                          ∧ comment_post r.2 = post_id)).
  { split; [apply SSorted_nil | by intros r ?%not_elem_of_nil]. }
  rewrite serve_post_detail. destruct Hnone as [Hsorted Hsubset].
  destruct (posts s !! post_id) as [p|] eqn:Hp; cbn [fst].
  - destruct (Q_holds s (_get_q_available request true) post_id p) eqn:HQ;
      cbn [fst].
    + unfold detail_page. cbn [detail_comments]. split; [|split].
      * apply StronglySorted_merge_sort; apply _.
      * intros r. apply elem_of_post_comments.
      * intros p' k c _ _ Hc Hpost. by apply elem_of_post_comments.
    + split; [exact Hsorted | split; [exact Hsubset |]].
      intros p' k c [= <-] HQ'. congruence.
  - split; [exact Hsorted | split; [exact Hsubset |]].
    by intros p' k c [=].
Qed.

(** X7.  The author of a stored post always gets its detail page, whether
    the post is published, dated in the future or without category. *)
Theorem owner_sees_own_post s request post_id a ua p :
  user request = AuthenticatedUser a ua →
  posts s !! post_id = Some p →
  post_author p = a →
  serve (post_detail request post_id) s
  = (detail_page s request (post_id, p), s).
Proof.
  intros Hu Hp Ha. rewrite serve_post_detail, Hp.
  assert (Q_holds s (_get_q_available request true) post_id p = true) as ->;
    [|done].
  apply get_q_available_holds. right. split; [done |]. by exists a, ua.
Qed.

(** Post 11 is Alice's and dated 5000; she reads it at 1000. *)
Lemma owner_sees_own_post_witness :
  serve (post_detail (Sample.as_alice 1000 GET None) 11) Sample.store
  = (detail_page Sample.store (Sample.as_alice 1000 GET None)
       (11, Sample.later), Sample.store).
Proof.
  apply (owner_sees_own_post Sample.store (Sample.as_alice 1000 GET None) 11
           1 Sample.alice Sample.later).
  - reflexivity.
  - vm_compute. reflexivity.
  - reflexivity.
Defined.

(** ** Anonymous visitors *)

(** X8.  An anonymous request to any of the views behind [login_required]
    (creating, editing or deleting a post, adding, editing or deleting a
    comment) is sent to the login page, and the store is left as it was. *)
Theorem anonymous_is_sent_to_login s request :
  user request = AnonymousUser →
  (∀ post_id,
     serve (create_post request post_id) s = (redirect url_login, s))
  ∧ (∀ post_id,
       serve (delete_post request post_id) s = (redirect url_login, s))
  ∧ (∀ post_id comment_id,
       serve (add_comment request post_id comment_id) s
       = (redirect url_login, s))
  ∧ (∀ post_id comment_id,
       serve (delete_comment request post_id comment_id) s
       = (redirect url_login, s)).
Proof.
  intros Hu.
  unfold create_post, delete_post, add_comment, delete_comment, login_required.
  rewrite Hu. by repeat split.
Qed.

Lemma anonymous_is_sent_to_login_witness :
  let s := Sample.store in
  let request := Sample.anonymous 1000 POST in
  (∀ post_id,
     serve (create_post request post_id) s = (redirect url_login, s))
  ∧ (∀ post_id,
       serve (delete_post request post_id) s = (redirect url_login, s))
  ∧ (∀ post_id comment_id,
       serve (add_comment request post_id comment_id) s
       = (redirect url_login, s))
  ∧ (∀ post_id comment_id,
       serve (delete_comment request post_id comment_id) s
       = (redirect url_login, s)).
Proof.
  apply (anonymous_is_sent_to_login Sample.store (Sample.anonymous 1000 POST)).
  reflexivity.
Defined.

(** ** Deleting a post *)

Lemma delete_post_run s request id :
  is_authenticated (user request) = true →
  delete_post request id s =
    match posts s !! id with
    | Some p =>
        if Q_holds s (_get_q_available request true) id p then
          if negb (is_request_user request (Some (post_author p)))
          then (Returned (redirect (url_post_detail id)), s)
          else if bool_decide (method request = POST)
          then (Returned (redirect url_index), Post_delete id s)
          else (Returned
                  (render "blog/create.html"
                     (ctx_create
                        (mkPostForm (POST_data request) None (Some (id, p))))
                     200), s)
        else (Raised Http404, s)
    | None => (Raised Http404, s)
    end.
Proof.
  intros Hauth. unfold delete_post, login_required. rewrite Hauth.
  unfold mbind at 1, View_bind at 1, read_store.
  unfold mbind at 1, View_bind at 1. rewrite get_available_post.
  destruct (posts s !! id) as [p|]; [|done].
  destruct (Q_holds s (_get_q_available request true) id p); [|done].
  cbn [snd fst]. destruct (negb _); [done |].
  by destruct (bool_decide (method request = POST)).
Qed.

Lemma Post_delete_posts s post_pk k :
  posts (Post_delete post_pk s) !! k
  = if bool_decide (k = post_pk) then None else posts s !! k.
Proof.
  unfold Post_delete. cbn [posts]. case_bool_decide as Hk.
  - subst k. apply lookup_delete_eq.
  - by apply lookup_delete_ne.
Qed.

(** X9.  The owner's POST to the delete route removes the post and the
    comments on it and nothing else, and answers with a redirect to the home
    feed; afterwards the post's detail page is 404 for everybody. *)
Theorem delete_post_by_owner s request post_id a ua p :
  user request = AuthenticatedUser a ua →
  posts s !! post_id = Some p →
  post_author p = a →
  method request = POST →
  ∃ s',
    serve (delete_post request post_id) s = (redirect url_index, s')
    ∧ posts s' = delete post_id (posts s)
    ∧ (∀ k c, comments s !! k = Some c →
              comments s' !! k
              = if bool_decide (comment_post c = post_id) then None
                else Some c)
    ∧ (∀ k, comments s !! k = None → comments s' !! k = None)
    ∧ users s' = users s
    ∧ categories s' = categories s
    ∧ locations s' = locations s
    ∧ (∀ request',
         (serve (post_detail request' post_id) s').1 = page_not_found).
Proof.
  intros Hu Hp Ha Hm. exists (Post_delete post_id s).
  assert (HQ : Q_holds s (_get_q_available request true) post_id p = true).
  { apply get_q_available_holds. right. split; [done |]. by exists a, ua. }
  split; [|split; [done |split; [|split; [|repeat split]]]].
  - unfold serve. rewrite delete_post_run by (by rewrite Hu).
    rewrite Hp, HQ, (is_request_user_post _ a ua) by done.
    by rewrite !bool_decide_eq_true_2.
  - intros k c Hc. by apply Post_delete_comments.
  - intros k Hk. unfold Post_delete. cbn [comments].
    apply map_lookup_filter_None. by left.
  - intros request'. rewrite serve_post_detail, Post_delete_posts.
    by rewrite bool_decide_eq_true_2.
Qed.

(** Bob deletes his post 12, which carries comment 102. *)
Lemma delete_post_by_owner_witness :
  ∃ s',
    serve (delete_post (Sample.as_bob 1000 POST None) 12) Sample.store
    = (redirect url_index, s')
    ∧ posts s' = delete 12 (posts Sample.store)
    ∧ (∀ k c, comments Sample.store !! k = Some c →
              comments s' !! k
              = if bool_decide (comment_post c = 12) then None else Some c)
    ∧ (∀ k, comments Sample.store !! k = None → comments s' !! k = None)
    ∧ users s' = users Sample.store
    ∧ categories s' = categories Sample.store
    ∧ locations s' = locations Sample.store
    ∧ (∀ request', (serve (post_detail request' 12) s').1 = page_not_found).
Proof.
  apply (delete_post_by_owner Sample.store (Sample.as_bob 1000 POST None) 12
           2 Sample.bob Sample.hidden).
  - reflexivity.
  - vm_compute. reflexivity.
  - reflexivity.
  - reflexivity.
Defined.

(** X10.  [delete_post] changes the store only on a POST by the author of
    the post; any other request leaves it as it was.  The author's request
    with another method gets the confirmation form. *)
Theorem delete_post_guard s request post_id :
  ((serve (delete_post request post_id) s).2 = s
   ∨ (method request = POST
      ∧ ∃ p, posts s !! post_id = Some p
             ∧ is_request_user request (Some (post_author p)) = true
             ∧ (serve (delete_post request post_id) s).2
               = Post_delete post_id s))
  ∧ (∀ p,
       posts s !! post_id = Some p →
       is_request_user request (Some (post_author p)) = true →
       method request ≠ POST →
       serve (delete_post request post_id) s
       = (render "blog/create.html"
            (ctx_create
               (mkPostForm (POST_data request) None (Some (post_id, p))))
            200, s)).
Proof.
  split.
  - destruct (user request) as [|a ua] eqn:Hu.
    { left. unfold delete_post, login_required. by rewrite Hu. }
    unfold serve. rewrite delete_post_run by (by rewrite Hu).
    destruct (posts s !! post_id) as [p|]; [|by left].
    destruct (Q_holds s (_get_q_available request true) post_id p);
      [|by left].
    destruct (is_request_user request (Some (post_author p))) eqn:Hown;
      cbn [negb]; [|by left].
    case_bool_decide as Hm; [|by left].
    right. split; [done |]. by exists p.
  - intros p Hp Hown Hm.
    assert (Hauthored : authored_by request p)
      by by apply authored_by_is_request_user.
    assert (HQ : Q_holds s (_get_q_available request true) post_id p = true).
    { apply get_q_available_holds. by right. }
    destruct Hauthored as (a & ua & Hu & _).
    unfold serve. rewrite delete_post_run by (by rewrite Hu).
    rewrite Hp, HQ, Hown. cbn [negb].
    by rewrite bool_decide_eq_false_2.
Qed.

(** ** Adding, editing and deleting comments *)

Lemma Q_holds_categories s s' q pk p :
  categories s' = categories s →
  Q_holds s' q pk p = Q_holds s q pk p.
Proof.
  intros Hc. induction q as [l| a IHa b IHb | a IHa b IHb]; cbn.
  - destruct l; cbn; try done. by rewrite Hc.
  - by rewrite IHa, IHb.
  - by rewrite IHa, IHb.
Qed.

(** X11.  A valid comment POSTed to a post the actor may see is stored under
    a fresh key, by the actor, on that post; the comments already there and
    the posts stay as they are; and the actor's next look at the post's
    detail page shows the new comment. *)
Theorem add_comment_then_detail s request post_id a ua p d :
  user request = AuthenticatedUser a ua →
  posts s !! post_id = Some p →
  Q_holds s (_get_q_available request true) post_id p = true →
  method request = POST →
  POST_data request = Some d →
  CommentForm_is_valid (mkCommentForm (Some d) None None) = true →
  ∃ k s',
    serve (add_comment request post_id None) s
    = (redirect (url_post_detail post_id), s')
    ∧ comments s !! k = None
    ∧ comments s'
      = <[k := mkComment (data_text d) (Some a) post_id (now request)]>
          (comments s)
    ∧ posts s' = posts s
    ∧ (k, mkComment (data_text d) (Some a) post_id (now request))
      ∈ detail_comments (serve (post_detail request post_id) s').1.
Proof.
  intros Hu Hp HQ Hm Hd Hvalid.
  exists (next_pk (comments s)).
  eexists. split; [by eapply add_comment_creates |].
  split; [apply next_pk_fresh |]. split; [done |]. split; [done |].
  rewrite serve_post_detail. cbn [posts set_comments]. rewrite Hp.
  rewrite (Q_holds_categories s) by done. rewrite HQ.
  cbn [fst detail_page detail_comments].
  apply elem_of_post_comments. cbn. split; [|done].
  apply lookup_insert_eq.
Qed.

Lemma add_comment_then_detail_witness :
  let s := Sample.store in
  let d := mkQueryDict "" "Hello Bob" None None false None None in
  let request := Sample.as_alice 1000 POST (Some d) in
  ∃ k s',
    serve (add_comment request 10 None) s = (redirect (url_post_detail 10), s')
    ∧ comments s !! k = None
    ∧ comments s'
      = <[k := mkComment (data_text d) (Some 1) 10 (now request)]> (comments s)
    ∧ posts s' = posts s
    ∧ (k, mkComment (data_text d) (Some 1) 10 (now request))
      ∈ detail_comments (serve (post_detail request 10) s').1.
Proof.
  apply (add_comment_then_detail Sample.store
           (Sample.as_alice 1000 POST
              (Some (mkQueryDict "" "Hello Bob" None None false None None)))
           10 1 Sample.alice Sample.hello
           (mkQueryDict "" "Hello Bob" None None false None None)).
  - reflexivity.
  - vm_compute. reflexivity.
  - vm_compute. reflexivity.
  - reflexivity.
  - reflexivity.
  - vm_compute. reflexivity.
Defined.

(** X12.  The add-comment route changes the store only on a POST with a
    valid form; and on a post the actor may see, a POST is answered by the
    redirect to the detail page whether the form was valid or not. *)
Theorem add_comment_only_valid_post s request post_id :
  ((serve (add_comment request post_id None) s).2 = s
   ∨ (method request = POST
      ∧ CommentForm_is_valid (mkCommentForm (POST_data request) None None)
        = true))
  ∧ (∀ a ua p,
       user request = AuthenticatedUser a ua →
       posts s !! post_id = Some p →
       Q_holds s (_get_q_available request true) post_id p = true →
       CommentForm_is_valid (mkCommentForm (POST_data request) None None)
       = false →
       serve (add_comment request post_id None) s
       = (redirect (url_post_detail post_id), s)).
Proof.
  assert (Hrun : ∀ a ua p,
            user request = AuthenticatedUser a ua →
            posts s !! post_id = Some p →
            Q_holds s (_get_q_available request true) post_id p = true →
            serve (add_comment request post_id None) s =
              if negb (bool_decide (method request = POST))
              then (redirect (url_post_detail post_id), s)
              else if CommentForm_is_valid
                        (mkCommentForm (POST_data request) None None)
              then serve (add_comment request post_id None) s
              else (redirect (url_post_detail post_id), s)).
  { intros a ua p Hu Hp HQ.
    destruct (negb (bool_decide (method request = POST))) eqn:Hm;
      destruct (CommentForm_is_valid
                  (mkCommentForm (POST_data request) None None)) eqn:Hvalid;
      try done.
    - unfold add_comment, serve, login_required. rewrite Hu.
      cbn [is_authenticated].
      unfold mbind at 1, View_bind at 1, read_store.
      rewrite (serve_available _ _ _ p) by done. by rewrite Hm.
    - unfold add_comment, serve, login_required. rewrite Hu.
      cbn [is_authenticated].
      unfold mbind at 1, View_bind at 1, read_store.
      rewrite (serve_available _ _ _ p) by done. by rewrite Hm.
    - unfold add_comment, serve, login_required. rewrite Hu.
      cbn [is_authenticated].
      unfold mbind at 1, View_bind at 1, read_store.
      rewrite (serve_available _ _ _ p) by done. rewrite Hm, Hvalid.
      by view_unfold. }
  split.
  - destruct (user request) as [|a ua] eqn:Hu.
    { left. unfold add_comment, login_required. by rewrite Hu. }
    destruct (posts s !! post_id) as [p|] eqn:Hp; last first.
    { left. unfold add_comment, serve, login_required. rewrite Hu.
      cbn [is_authenticated].
      unfold mbind at 1, View_bind at 1, read_store.
      rewrite serve_unavailable; [done |]. intros (p & Hp' & _). congruence. }
    destruct (Q_holds s (_get_q_available request true) post_id p) eqn:HQ;
      last first.
    { left. unfold add_comment, serve, login_required. rewrite Hu.
      cbn [is_authenticated].
      unfold mbind at 1, View_bind at 1, read_store.
      rewrite serve_unavailable; [done |].
      intros (p' & Hp' & HQ'). congruence. }
    rewrite (Hrun a ua p) by done.
    destruct (bool_decide (method request = POST)) eqn:Hm; cbn [negb];
      [|by left].
    destruct (CommentForm_is_valid _) eqn:Hvalid; [|by left].
    right. split; [|done]. by apply bool_decide_eq_true in Hm.
  - intros a ua p Hu Hp HQ Hvalid. rewrite (Hrun a ua p) by done.
    rewrite Hvalid. by destruct (negb _).
Qed.

Lemma is_request_user_other request a ua author :
  user request = AuthenticatedUser a ua →
  author ≠ Some a →
  is_request_user request author = false.
Proof.
  unfold is_request_user. intros -> Hne. destruct author as [b|]; [|done].
  apply bool_decide_eq_false_2. congruence.
Qed.

(** X13.  Somebody who did not write a comment (or a comment whose author
    was deleted) can neither edit nor delete it: both routes answer with the
    redirect to the post's detail page and leave the store as it was,
    whatever the method and the submitted form. *)
Theorem comment_of_other_untouched s request post_id comment_id a ua p c :
  user request = AuthenticatedUser a ua →
  posts s !! post_id = Some p →
  Q_holds s (_get_q_available request true) post_id p = true →
  comments s !! comment_id = Some c →
  comment_author c ≠ Some a →
  serve (add_comment request post_id (Some comment_id)) s
  = (redirect (url_post_detail post_id), s)
  ∧ (comment_post c = post_id →
     serve (delete_comment request post_id comment_id) s
     = (redirect (url_post_detail post_id), s)).
Proof.
  intros Hu Hp HQ Hc Hother.
  pose proof (is_request_user_other request a ua _ Hu Hother) as Hnot.
  split.
  - unfold add_comment, serve, login_required. rewrite Hu.
    cbn [is_authenticated].
    unfold mbind at 1, View_bind at 1, read_store.
    rewrite (serve_available _ _ _ p) by done.
    rewrite comment_by_id, Hc. view_unfold. cbn [snd].
    by rewrite Hnot.
  - intros Hpost. unfold delete_comment, serve, login_required. rewrite Hu.
    cbn [is_authenticated].
    unfold mbind at 1, View_bind at 1, read_store.
    rewrite (serve_available _ _ _ p) by done. cbn [fst].
    rewrite comment_of_post_by_id, Hc.
    rewrite (bool_decide_eq_true_2 (comment_post c = post_id)) by done.
    view_unfold. cbn [snd]. by rewrite Hnot.
Qed.

(** Alice tries Bob's comment 100 on post 10. *)
Lemma comment_of_other_untouched_witness :
  let s := Sample.store in
  let request :=
    Sample.as_alice 1000 POST
      (Some (mkQueryDict "" "Changed" None None false None None)) in
  serve (add_comment request 10 (Some 100)) s
  = (redirect (url_post_detail 10), s)
  ∧ (comment_post (mkComment "Nice" (Some 2) 10 200) = 10 →
     serve (delete_comment request 10 100) s
     = (redirect (url_post_detail 10), s)).
Proof.
  apply (comment_of_other_untouched Sample.store
           (Sample.as_alice 1000 POST
              (Some (mkQueryDict "" "Changed" None None false None None)))
           10 100 1 Sample.alice Sample.hello
           (mkComment "Nice" (Some 2) 10 200)).
  - reflexivity.
  - vm_compute. reflexivity.
  - vm_compute. reflexivity.
  - vm_compute. reflexivity.
  - simpl. discriminate.
Defined.

Lemma set_comments_id s : set_comments id s = s.
Proof. by destruct s. Qed.

Lemma add_comment_sets_comments s request post_id comment_id :
  ∃ f, (serve (add_comment request post_id comment_id) s).2 = set_comments f s.
Proof.
  assert (Hsame : ∃ f, s = set_comments f s)
    by (exists id; by rewrite set_comments_id).
  destruct (user request) as [|a ua] eqn:Hu.
  { unfold add_comment, login_required. by rewrite Hu. }
  unfold add_comment, serve, login_required. rewrite Hu.
  cbn [is_authenticated].
  unfold mbind at 1, View_bind at 1, read_store.
  unfold mbind at 1, View_bind at 1. rewrite get_available_post.
  destruct (posts s !! post_id) as [p|]; [|done].
  destruct (Q_holds s (_get_q_available request true) post_id p); [|done].
  destruct comment_id as [comment_id|].
  - rewrite comment_by_id. destruct (comments s !! comment_id) as [c|];
      view_unfold; [|done].
    destruct (negb _); [done |].
    destruct (_ && _); [|done].
    destruct (CommentForm_save _) as [[k|] c']; unfold Comment_save;
      view_unfold; cbn [snd]; by eexists.
  - destruct (negb _); [done |].
    destruct (CommentForm_is_valid _); view_unfold; [|done].
    destruct (CommentForm_save _) as [[k|] c']; unfold Comment_save;
      view_unfold; cbn [snd]; by eexists.
Qed.

Lemma delete_comment_sets_comments s request post_id comment_id :
  ∃ f,
    (serve (delete_comment request post_id comment_id) s).2
    = set_comments f s.
Proof.
  assert (Hsame : ∃ f, s = set_comments f s)
    by (exists id; by rewrite set_comments_id).
  destruct (user request) as [|a ua] eqn:Hu.
  { unfold delete_comment, login_required. by rewrite Hu. }
  unfold delete_comment, serve, login_required. rewrite Hu.
  cbn [is_authenticated].
  unfold mbind at 1, View_bind at 1, read_store.
  unfold mbind at 1, View_bind at 1. rewrite get_available_post.
  destruct (posts s !! post_id) as [p|]; [|done].
  destruct (Q_holds s (_get_q_available request true) post_id p); [|done].
  cbn [fst]. rewrite comment_of_post_by_id.
  destruct (comments s !! comment_id) as [c|]; view_unfold; [|done].
  destruct (bool_decide (comment_post c = post_id)); [|done].
  destruct (negb _); [done |].
  destruct (bool_decide (method request = POST)); [|done].
  cbn [snd]. by eexists.
Qed.

(** X14.  Whatever the request, the comment routes leave the posts, the
    users, the categories and the locations as they are. *)
Theorem comment_routes_keep_posts s request post_id :
  (∀ comment_id,
     let s' := (serve (add_comment request post_id comment_id) s).2 in
     posts s' = posts s ∧ users s' = users s
     ∧ categories s' = categories s ∧ locations s' = locations s)
  ∧ (∀ comment_id,
       let s' := (serve (delete_comment request post_id comment_id) s).2 in
       posts s' = posts s ∧ users s' = users s
       ∧ categories s' = categories s ∧ locations s' = locations s).
Proof.
  split; intros comment_id.
  - destruct (add_comment_sets_comments s request post_id comment_id)
      as [f Hf].
    cbn zeta. by rewrite Hf.
  - destruct (delete_comment_sets_comments s request post_id comment_id)
      as [f Hf].
    cbn zeta. by rewrite Hf.
Qed.

(** ** Creating and editing posts *)

Lemma PostForm_valid_data s form :
  PostForm_is_valid s form = true →
  ∃ d t c, post_form_data form = Some d
           ∧ data_pub_date d = Some t
           ∧ data_category d = Some c
           ∧ is_Some (categories s !! c)
           ∧ match data_location d with
             | Some l => is_Some (locations s !! l)
             | None => True
             end.
Proof.
  unfold PostForm_is_valid. destruct (post_form_data form) as [d|]; [|done].
  rewrite !andb_true_iff. intros [[[[[[_ _] _] Hdate] Hcat] Hloc] _].
  apply bool_decide_eq_true in Hdate as [t Ht].
  destruct (data_category d) as [c|] eqn:Hc; [|done].
  apply bool_decide_eq_true in Hcat.
  exists d, t, c. do 4 (split; [done |]).
  destruct (data_location d); [|done]. by apply bool_decide_eq_true in Hloc.
Qed.

(** X15.  A valid POST to the create route stores a new post under a fresh
    key (every stored post and comment stays as it is) with the submitted
    fields, the actor as author, published, and stamped with the time of the
    request; its image is the uploaded file, the empty name if the clear box
    was ticked, and none otherwise.  The answer is the redirect to the
    actor's profile, and from then on the author gets the post's detail
    page, whatever its date. *)
Theorem create_then_detail s request a ua d :
  user request = AuthenticatedUser a ua →
  method request = POST →
  POST_data request = Some d →
  PostForm_is_valid s
    (mkPostForm (POST_data request) (Some (now request)) None) = true →
  ∃ k p' s',
    serve (create_post request None) s
    = (redirect (url_profile (username ua)), s')
    ∧ posts s !! k = None
    ∧ posts s' = <[k := p']> (posts s)
    ∧ comments s' = comments s
    ∧ p' = mkPost (data_title d) (data_text d)
             (default 0 (data_pub_date d))
             (match data_image d with
              | Some f => Some f
              | None => if data_image_clear d then Some "" else None
              end)
             a (data_location d) (data_category d) true (now request)
    ∧ is_Some (data_pub_date d)
    ∧ (∀ request',
         user request' = user request →
         serve (post_detail request' k) s'
         = (detail_page s' request' (k, p'), s')).
Proof.
  intros Hu Hm Hd Hvalid.
  exists (next_pk (posts s)),
    (set_post_created_at (now request) (post_to_save request None)),
    (set_posts
       (insert (next_pk (posts s))
          (set_post_created_at (now request) (post_to_save request None))) s).
  destruct (PostForm_valid_data _ _ Hvalid) as (d' & t & c & Hd' & Ht & _).
  cbn in Hd'. rewrite Hd in Hd'. injection Hd' as <-.
  split; [|split; [apply next_pk_fresh |split; [done |split; [done |]]]].
  - unfold create_post, login_required. rewrite Hu. cbn [is_authenticated].
    unfold serve. rewrite create_post_form_run. cbn zeta.
    rewrite Hvalid, bool_decide_eq_true_2 by done. cbn.
    unfold request_username. by rewrite Hu.
  - split; [|split; [by rewrite Ht |]].
    + unfold post_to_save, PostForm_save. cbn. rewrite Hd, Hu. cbn.
      reflexivity.
    + intros request' Hu'. rewrite serve_post_detail. cbn [posts set_posts].
      rewrite lookup_insert_eq.
      assert (Q_holds
                (set_posts
                   (insert (next_pk (posts s))
                      (set_post_created_at (now request)
                         (post_to_save request None))) s)
                (_get_q_available request' true) (next_pk (posts s))
                (set_post_created_at (now request)
                   (post_to_save request None)) = true) as ->; [|done].
      apply get_q_available_holds. right. split; [done |].
      exists a, ua. split; [congruence |].
      unfold post_to_save. by rewrite Hu.
Qed.

(** Alice creates a post dated 9000 at time 1000. *)
Lemma create_then_detail_witness :
  let s := Sample.store in
  let d := mkQueryDict "New" "Body" (Some 9000) None false None (Some 1) in
  let request := Sample.as_alice 1000 POST (Some d) in
  ∃ k p' s',
    serve (create_post request None) s
    = (redirect (url_profile (username Sample.alice)), s')
    ∧ posts s !! k = None
    ∧ posts s' = <[k := p']> (posts s)
    ∧ comments s' = comments s
    ∧ p' = mkPost (data_title d) (data_text d)
             (default 0 (data_pub_date d))
             (match data_image d with
              | Some f => Some f
              | None => if data_image_clear d then Some "" else None
              end)
             1 (data_location d) (data_category d) true (now request)
    ∧ is_Some (data_pub_date d)
    ∧ (∀ request',
         user request' = user request →
         serve (post_detail request' k) s'
         = (detail_page s' request' (k, p'), s')).
Proof.
  apply (create_then_detail Sample.store
           (Sample.as_alice 1000 POST
              (Some (mkQueryDict "New" "Body" (Some 9000) None false None (Some 1))))
           1 Sample.alice
           (mkQueryDict "New" "Body" (Some 9000) None false None (Some 1))).
  - reflexivity.
  - reflexivity.
  - reflexivity.
  - vm_compute. reflexivity.
Defined.

(** X16.  The owner's valid POST to the edit route rewrites the post under
    its key with the submitted title, text, date, location and category, and
    publishes it; it keeps the creation time and the author; an uploaded file
    replaces the image, the clear box without an upload leaves the empty name
    in its place, and otherwise the image is kept; no other post and no
    comment is touched.  A form with both an upload and the clear box is not
    valid, and then nothing is stored. *)
Theorem edit_post_fields s request post_id a ua p d :
  user request = AuthenticatedUser a ua →
  method request = POST →
  posts s !! post_id = Some p →
  post_author p = a →
  POST_data request = Some d →
  (PostForm_is_valid s
     (mkPostForm (POST_data request) (Some (now request))
        (Some (post_id, p))) = true →
   ∃ p' s',
     serve (create_post request (Some post_id)) s
     = (redirect (url_post_detail post_id), s')
     ∧ posts s' = <[post_id := p']> (posts s)
     ∧ comments s' = comments s
     ∧ p' = mkPost (data_title d) (data_text d)
              (default 0 (data_pub_date d))
              (match data_image d with
               | Some f => Some f
               | None => if data_image_clear d then Some "" else post_image p
               end)
              (post_author p) (data_location d) (data_category d) true
              (post_created_at p)
     ∧ is_Some (data_pub_date d)
     ∧ ¬ (data_image_clear d = true ∧ is_Some (data_image d)))
  ∧ (data_image_clear d = true →
     is_Some (data_image d) →
     serve (create_post request (Some post_id)) s
     = (render "blog/create.html"
          (ctx_create
             (mkPostForm (POST_data request) (Some (now request))
                (Some (post_id, p))))
          200, s)).
Proof.
  intros Hu Hm Hp Ha Hd.
  assert (HQ : Q_holds s (_get_q_available request true) post_id p = true).
  { apply get_q_available_holds. right. split; [done |]. by exists a, ua. }
  assert (Hrun : serve (create_post request (Some post_id)) s
                 = serve (create_post_form request (Some post_id)
                            (Some (post_id, p))) s).
  { unfold serve. rewrite create_post_edit_run by (by rewrite Hu).
    rewrite Hp, HQ, (is_request_user_post _ a ua) by done.
    by rewrite bool_decide_eq_true_2. }
  rewrite Hrun. unfold serve. rewrite create_post_form_run. cbn zeta.
  rewrite (bool_decide_eq_true_2 (method request = POST)) by done.
  cbn [andb]. split.
  - intros Hvalid. rewrite Hvalid.
    exists (post_to_save request (Some (post_id, p))),
      (set_posts (insert post_id (post_to_save request (Some (post_id, p))))
         s).
    destruct (PostForm_valid_data _ _ Hvalid) as (d' & t & c & Hd' & Ht & _).
    cbn in Hd'. rewrite Hd in Hd'. injection Hd' as <-.
    split; [done |]. split; [done |]. split; [done |].
    split; [|split; [by rewrite Ht |]].
    + unfold post_to_save, PostForm_save. cbn. rewrite Hd, Hu. cbn.
      unfold set_post_is_published, set_post_author. cbn.
      by rewrite Ht, Ha.
    + intros [Hclear Hupload]. unfold PostForm_is_valid in Hvalid.
      cbn in Hvalid. rewrite Hd, Hclear in Hvalid.
      rewrite (bool_decide_eq_true_2 (is_Some (data_image d))) in Hvalid
        by done.
      cbn in Hvalid. by rewrite andb_false_r in Hvalid.
  - intros Hclear Hupload.
    assert (PostForm_is_valid s
              (mkPostForm (POST_data request) (Some (now request))
                 (Some (post_id, p))) = false) as ->; [|done].
    unfold PostForm_is_valid. cbn. rewrite Hd, Hclear.
    rewrite (bool_decide_eq_true_2 (is_Some (data_image d))) by done.
    cbn. apply andb_false_r.
Qed.

(** Bob rewrites his unpublished post 12 and ticks the clear box. *)
Lemma edit_post_fields_witness :
  let s := Sample.store in
  let d := mkQueryDict "Shown" "On" (Some 100) None true None (Some 1) in
  let request := Sample.as_bob 1000 POST (Some d) in
  (PostForm_is_valid s
     (mkPostForm (POST_data request) (Some (now request))
        (Some (12, Sample.hidden))) = true →
   ∃ p' s',
     serve (create_post request (Some 12)) s
     = (redirect (url_post_detail 12), s')
     ∧ posts s' = <[12 := p']> (posts s)
     ∧ comments s' = comments s
     ∧ p' = mkPost (data_title d) (data_text d)
              (default 0 (data_pub_date d))
              (match data_image d with
               | Some f => Some f
               | None =>
                   if data_image_clear d then Some ""
                   else post_image Sample.hidden
               end)
              (post_author Sample.hidden) (data_location d)
              (data_category d) true (post_created_at Sample.hidden)
     ∧ is_Some (data_pub_date d)
     ∧ ¬ (data_image_clear d = true ∧ is_Some (data_image d)))
  ∧ (data_image_clear d = true →
     is_Some (data_image d) →
     serve (create_post request (Some 12)) s
     = (render "blog/create.html"
          (ctx_create
             (mkPostForm (POST_data request) (Some (now request))
                (Some (12, Sample.hidden))))
          200, s)).
Proof.
  apply (edit_post_fields Sample.store
           (Sample.as_bob 1000 POST
              (Some (mkQueryDict "Shown" "On" (Some 100) None true None
                       (Some 1))))
           12 2 Sample.bob Sample.hidden
           (mkQueryDict "Shown" "On" (Some 100) None true None (Some 1))).
  - reflexivity.
  - reflexivity.
  - vm_compute. reflexivity.
  - reflexivity.
  - reflexivity.
Defined.

(** The three ways the image field of an edit can go, and the refused
    one, on a post that has an image. *)
Example edit_post_image_sample :
  let pictured :=
    mkPost "Hidden" "Off" 100 (Some "post_attach/a.png") 2 None (Some 1)
      false 96 in
  let s := set_posts (insert 12 pictured) Sample.store in
  let edit upload clear :=
    serve (create_post
             (Sample.as_bob 1000 POST
                (Some (mkQueryDict "Shown" "On" (Some 100) upload clear None
                         (Some 1))))
             (Some 12)) s in
  post_image <$> posts (edit None false).2 !! 12
  = Some (Some "post_attach/a.png")
  ∧ post_image <$> posts (edit (Some "post_attach/b.png") false).2 !! 12
    = Some (Some "post_attach/b.png")
  ∧ post_image <$> posts (edit None true).2 !! 12 = Some (Some "")
  ∧ (edit (Some "post_attach/b.png") true).2 = s.
Proof. vm_compute. done. Qed.

(** X17.  [create_post] changes the store only on a POST whose form is
    valid.  On the create route any other request gets the form back, bound
    to what was submitted, and nothing is stored. *)
Theorem create_post_guard s request :
  (∀ post_id,
     (serve (create_post request post_id) s).2 = s
     ∨ (method request = POST
        ∧ ∃ instance,
            PostForm_is_valid s
              (mkPostForm (POST_data request) (Some (now request)) instance)
            = true))
  ∧ (is_authenticated (user request) = true →
     ¬ (method request = POST
        ∧ PostForm_is_valid s
            (mkPostForm (POST_data request) (Some (now request)) None)
          = true) →
     serve (create_post request None) s
     = (render "blog/create.html"
          (ctx_create
             (mkPostForm (POST_data request) (Some (now request)) None))
          200, s)).
Proof.
  assert (Hform : ∀ post_id instance,
            (serve (create_post_form request post_id instance) s).2 = s
            ∨ (method request = POST
               ∧ ∃ instance,
                   PostForm_is_valid s
                     (mkPostForm (POST_data request) (Some (now request))
                        instance) = true)).
  { intros post_id instance. unfold serve. rewrite create_post_form_run.
    cbn zeta.
    destruct (bool_decide (method request = POST)) eqn:Hm; [|by left].
    destruct (PostForm_is_valid s _) eqn:Hvalid; [|by left].
    right. split; [by apply bool_decide_eq_true in Hm |]. by exists instance. }
  split.
  - intros post_id.
    destruct (is_authenticated (user request)) eqn:Hauth; last first.
    { left. unfold create_post, login_required. by rewrite Hauth. }
    destruct post_id as [id|].
    + unfold serve in *. rewrite create_post_edit_run by done.
      destruct (posts s !! id) as [p|]; [|by left].
      destruct (Q_holds s (_get_q_available request true) id p); [|by left].
      destruct (negb _); [by left |]. apply Hform.
    + unfold create_post, login_required. rewrite Hauth. apply Hform.
  - intros Hauth Hnot. unfold create_post, login_required. rewrite Hauth.
    unfold serve. rewrite create_post_form_run. cbn zeta.
    destruct (bool_decide (method request = POST)) eqn:Hm; [|done].
    destruct (PostForm_is_valid s _) eqn:Hvalid; [|done].
    exfalso. apply Hnot. split; [|done]. by apply bool_decide_eq_true in Hm.
Qed.

(** ** Referential integrity *)

Lemma integrity_lookup s :
  integrity s ↔
    (∀ k p, posts s !! k = Some p → post_refs_ok s p)
    ∧ (∀ k c, comments s !! k = Some c → comment_refs_ok s c).
Proof. unfold integrity. by rewrite !map_Forall_lookup. Qed.

Lemma integrity_insert_post s k p :
  integrity s → post_refs_ok s p → integrity (set_posts (insert k p) s).
Proof.
  rewrite !integrity_lookup. intros [Hposts Hcomments] Hp. split.
  - intros k' p'. cbn [posts set_posts]. rewrite lookup_insert.
    case_decide; [intros [= <-]; exact Hp | apply Hposts].
  - intros k' c Hc. destruct (Hcomments k' c Hc) as [Hpost Hauthor].
    split; [|exact Hauthor]. cbn [posts set_posts].
    rewrite lookup_insert. by case_decide.
Qed.

Lemma integrity_insert_comment s k c :
  integrity s → comment_refs_ok s c → integrity (set_comments (insert k c) s).
Proof.
  rewrite !integrity_lookup. intros [Hposts Hcomments] Hc. split.
  - exact Hposts.
  - intros k' c'. cbn [comments set_comments]. rewrite lookup_insert.
    case_decide; [intros [= <-]; exact Hc | apply Hcomments].
Qed.

Lemma integrity_Comment_delete s k :
  integrity s → integrity (Comment_delete k s).
Proof.
  rewrite !integrity_lookup. intros [Hposts Hcomments]. split.
  - exact Hposts.
  - intros k' c. unfold Comment_delete. cbn [comments set_comments].
    intros [_ Hc]%lookup_delete_Some. by eapply Hcomments.
Qed.

Lemma integrity_Post_delete s k :
  integrity s → integrity (Post_delete k s).
Proof.
  rewrite !integrity_lookup. intros [Hposts Hcomments]. split.
  - intros k' p. rewrite Post_delete_posts. case_bool_decide; [done |].
    apply Hposts.
  - intros k' c. unfold Post_delete at 1. cbn [comments].
    intros [Hc Hne]%map_lookup_filter_Some. cbn in Hne.
    destruct (Hcomments k' c Hc) as [Hpost Hauthor].
    split; [|exact Hauthor]. rewrite Post_delete_posts.
    by rewrite bool_decide_eq_false_2.
Qed.

Lemma integrity_Category_delete s k :
  integrity s → integrity (Category_delete k s).
Proof.
  rewrite !integrity_lookup. intros [Hposts Hcomments]. split.
  - intros k' p'. rewrite Category_delete_posts.
    destruct (posts s !! k') as [p|] eqn:Hp; [|done]. intros [= <-].
    destruct (Hposts k' p Hp) as (Hauthor & Hcat & Hloc).
    unfold post_refs_ok, Category_delete. cbn [users categories locations].
    case_bool_decide as Hk; cbn; [done |].
    split; [done |]. split; [|done].
    destruct (post_category p) as [c|]; [|done].
    rewrite lookup_delete_ne; [done | congruence].
  - intros k' c Hc. destruct (Hcomments k' c Hc) as [Hpost Hauthor].
    split; [|exact Hauthor]. rewrite Category_delete_posts.
    by apply fmap_is_Some.
Qed.

Lemma integrity_Location_delete s k :
  integrity s → integrity (Location_delete k s).
Proof.
  rewrite !integrity_lookup. intros [Hposts Hcomments]. split.
  - intros k' p'. unfold Location_delete at 1. cbn [posts].
    rewrite lookup_fmap.
    destruct (posts s !! k') as [p|] eqn:Hp; [|done]. intros [= <-].
    destruct (Hposts k' p Hp) as (Hauthor & Hcat & Hloc).
    unfold post_refs_ok, Location_delete. cbn [users categories locations].
    case_bool_decide as Hk; cbn; [done |].
    split; [done |]. split; [done |].
    destruct (post_location p) as [l|]; [|done].
    rewrite lookup_delete_ne; [done | congruence].
  - intros k' c Hc. destruct (Hcomments k' c Hc) as [Hpost Hauthor].
    split; [|exact Hauthor]. unfold Location_delete. cbn [posts].
    rewrite lookup_fmap. by apply fmap_is_Some.
Qed.

Lemma integrity_User_delete s k :
  integrity s → integrity (User_delete k s).
Proof.
  rewrite !integrity_lookup. intros [Hposts Hcomments]. split.
  - intros k' p. unfold User_delete at 1. cbn [posts].
    intros [Hp Hne]%map_lookup_filter_Some. cbn in Hne.
    destruct (Hposts k' p Hp) as (Hauthor & Hrest).
    split; [|exact Hrest]. unfold User_delete. cbn [users].
    by rewrite lookup_delete_ne.
  - intros k' c'. unfold User_delete at 1. cbn [comments].
    rewrite lookup_fmap.
    destruct (filter _ (comments s) !! k') as [c|] eqn:Hc; [|done].
    intros [= <-]. apply map_lookup_filter_Some in Hc as [Hc Hkept].
    cbn in Hkept. destruct (Hcomments k' c Hc) as [[p Hp] Hauthor].
    assert (Hne : post_author p ≠ k).
    { intros Heq. apply map_lookup_filter_None in Hkept as [Hnone | Hnot].
      - congruence.
      - by apply (Hnot p Hp). }
    split.
    + exists p. unfold User_delete. cbn [posts].
      assert (comment_post
                (if bool_decide (comment_author c = Some k)
                 then set_comment_author None c else c) = comment_post c)
        as -> by by case_bool_decide.
      by apply map_lookup_filter_Some.
    + unfold User_delete. cbn [users]. case_bool_decide as Hk; [done |].
      destruct (comment_author c) as [a|]; [|done].
      rewrite lookup_delete_ne; [done | congruence].
Qed.

(** X18.  Deleting a comment, a post, a category, a location or a user,
    with the [on_delete] rules of models.py, leaves no dangling key: in a
    store where every foreign key refers to a stored row, it does so
    afterwards. *)
Theorem deletes_keep_integrity s :
  integrity s →
  (∀ k, integrity (Comment_delete k s))
  ∧ (∀ k, integrity (Post_delete k s))
  ∧ (∀ k, integrity (Category_delete k s))
  ∧ (∀ k, integrity (Location_delete k s))
  ∧ (∀ k, integrity (User_delete k s)).
Proof.
  intros Hs. split; [|split; [|split; [|split]]]; intros k.
  - by apply integrity_Comment_delete.
  - by apply integrity_Post_delete.
  - by apply integrity_Category_delete.
  - by apply integrity_Location_delete.
  - by apply integrity_User_delete.
Qed.

Lemma deletes_keep_integrity_witness :
  (∀ k, integrity (Comment_delete k Sample.store))
  ∧ (∀ k, integrity (Post_delete k Sample.store))
  ∧ (∀ k, integrity (Category_delete k Sample.store))
  ∧ (∀ k, integrity (Location_delete k Sample.store))
  ∧ (∀ k, integrity (User_delete k Sample.store)).
Proof.
  apply (deletes_keep_integrity Sample.store).
  apply (bool_decide_unpack _). vm_compute. exact I.
Defined.

Lemma post_to_save_refs_ok s request instance a ua :
  user request = AuthenticatedUser a ua →
  users s !! a = Some ua →
  PostForm_is_valid s
    (mkPostForm (POST_data request) (Some (now request)) instance) = true →
  post_refs_ok s (post_to_save request instance).
Proof.
  intros Hu Ha Hvalid.
  destruct (PostForm_valid_data _ _ Hvalid)
    as (d & t & c & Hd & Ht & Hc & Hcat & Hloc).
  cbn in Hd. unfold post_to_save, PostForm_save. cbn. rewrite Hd, Hu. cbn.
  unfold post_refs_ok. cbn. rewrite Ha, Hc. done.
Qed.

Lemma create_post_form_integrity s request post_id instance a ua :
  integrity s →
  user request = AuthenticatedUser a ua →
  users s !! a = Some ua →
  integrity (serve (create_post_form request post_id instance) s).2.
Proof.
  intros Hs Hu Ha. unfold serve. rewrite create_post_form_run. cbn zeta.
  destruct (bool_decide (method request = POST)); [|done].
  destruct (PostForm_is_valid s _) eqn:Hvalid; [|done]. cbn.
  pose proof (post_to_save_refs_ok s request instance a ua Hu Ha Hvalid)
    as Hrefs.
  destruct instance as [r|]; by apply integrity_insert_post.
Qed.

(** X19.  The views that write keep referential integrity: if every foreign
    key of the store refers to a stored row and the authenticated user is a
    stored user, the same holds of the store any request to [create_post],
    [delete_post], [add_comment] or [delete_comment] leaves behind. *)
Theorem views_keep_integrity s request :
  integrity s →
  request_user_stored s request →
  (∀ post_id, integrity (serve (create_post request post_id) s).2)
  ∧ (∀ post_id, integrity (serve (delete_post request post_id) s).2)
  ∧ (∀ post_id comment_id,
       integrity (serve (add_comment request post_id comment_id) s).2)
  ∧ (∀ post_id comment_id,
       integrity (serve (delete_comment request post_id comment_id) s).2).
Proof.
  intros Hs Hstored. unfold request_user_stored in Hstored.
  destruct (user request) as [|a ua] eqn:Hu.
  { unfold create_post, delete_post, add_comment, delete_comment,
      login_required. rewrite Hu.
    split; [|split; [|split]]; intros; exact Hs. }
  assert (Hauth : is_authenticated (user request) = true) by by rewrite Hu.
  split; [|split; [|split]].
  - intros [id|].
    + unfold serve. rewrite create_post_edit_run by done.
      destruct (posts s !! id) as [p|]; [|done].
      destruct (Q_holds s (_get_q_available request true) id p); [|done].
      destruct (negb _); [done |].
      by apply (create_post_form_integrity s request (Some id) _ a ua).
    + unfold create_post, login_required. rewrite Hauth.
      by apply (create_post_form_integrity s request None None a ua).
  - intros id. unfold serve. rewrite delete_post_run by done.
    destruct (posts s !! id) as [p|]; [|done].
    destruct (Q_holds s (_get_q_available request true) id p); [|done].
    destruct (negb _); [done |].
    destruct (bool_decide (method request = POST)); [|done].
    by apply integrity_Post_delete.
  - intros post_id comment_id.
    unfold add_comment, serve, login_required. rewrite Hauth.
    unfold mbind at 1, View_bind at 1, read_store.
    unfold mbind at 1, View_bind at 1. rewrite get_available_post.
    destruct (posts s !! post_id) as [p|] eqn:Hp; [|done].
    destruct (Q_holds s (_get_q_available request true) post_id p); [|done].
    destruct comment_id as [comment_id|].
    + rewrite comment_by_id.
      destruct (comments s !! comment_id) as [c|] eqn:Hc;
        view_unfold; [|done].
      destruct (negb _); [done |].
      destruct (_ && _); [|done].
      unfold CommentForm_save. cbn.
      assert (Hrefs : comment_refs_ok s c).
      { apply integrity_lookup in Hs as [_ Hcomments]. by eapply Hcomments. }
      destruct (POST_data request) as [d|]; unfold Comment_save; view_unfold;
        cbn [snd]; by apply integrity_insert_comment.
    + destruct (negb _); [done |].
      destruct (CommentForm_is_valid _); view_unfold; [|done].
      unfold CommentForm_save. cbn. rewrite Hu.
      destruct (POST_data request) as [d|]; unfold Comment_save; view_unfold;
        cbn [snd]; apply integrity_insert_comment; try done;
        (split; cbn; [by rewrite Hp | by rewrite Hstored]).
  - intros post_id comment_id.
    unfold delete_comment, serve, login_required. rewrite Hauth.
    unfold mbind at 1, View_bind at 1, read_store.
    unfold mbind at 1, View_bind at 1. rewrite get_available_post.
    destruct (posts s !! post_id) as [p|]; [|done].
    destruct (Q_holds s (_get_q_available request true) post_id p); [|done].
    cbn [fst]. rewrite comment_of_post_by_id.
    destruct (comments s !! comment_id) as [c|]; view_unfold; [|done].
    destruct (bool_decide (comment_post c = post_id)); [|done].
    destruct (negb _); [done |].
    destruct (bool_decide (method request = POST)); [|done].
    cbn [snd]. by apply integrity_Comment_delete.
Qed.

Lemma views_keep_integrity_witness :
  let s := Sample.store in
  let request :=
    Sample.as_alice 1000 POST
      (Some (mkQueryDict "New" "Body" (Some 9000) None false None (Some 1))) in
  (∀ post_id, integrity (serve (create_post request post_id) s).2)
  ∧ (∀ post_id, integrity (serve (delete_post request post_id) s).2)
  ∧ (∀ post_id comment_id,
       integrity (serve (add_comment request post_id comment_id) s).2)
  ∧ (∀ post_id comment_id,
       integrity (serve (delete_comment request post_id comment_id) s).2).
Proof.
  apply (views_keep_integrity Sample.store
           (Sample.as_alice 1000 POST
              (Some (mkQueryDict "New" "Body" (Some 9000) None false None
                       (Some 1))))).
  - apply (bool_decide_unpack _). vm_compute. exact I.
  - vm_compute. reflexivity.
Defined.

(** ** Deleting a category and the feeds *)

Lemma null_category_not_public s t p :
  post_category p = None → ¬ publicly_visible s t p.
Proof. intros Hnull (_ & _ & c & cat & Hc & _). congruence. Qed.

(** X20.  Deleting a category takes its posts off the public side of the
    site: each is kept, without category, is on no page of the home feed,
    and its detail page is 404 for everybody but its author.  Posts of other
    categories are as visible as before. *)
Theorem Category_delete_visibility s category_pk request k p :
  posts s !! k = Some p →
  (post_category p = Some category_pk →
   posts (Category_delete category_pk s) !! k
   = Some (set_post_category None p)
   ∧ (∀ row,
        row ∈ listed (serve (index request) (Category_delete category_pk s)).1 →
        row_pk row ≠ k)
   ∧ (is_request_user request (Some (post_author p)) = false →
      (serve (post_detail request k) (Category_delete category_pk s)).1
      = page_not_found))
  ∧ (post_category p ≠ Some category_pk →
     posts (Category_delete category_pk s) !! k = Some p
     ∧ ∀ own,
         Q_holds (Category_delete category_pk s) (_get_q_available request own)
           k p
         = Q_holds s (_get_q_available request own) k p).
Proof.
  intros Hp. split.
  - intros Hcat.
    assert (Hp' : posts (Category_delete category_pk s) !! k
                  = Some (set_post_category None p)).
    { rewrite Category_delete_posts, Hp. cbn.
      by rewrite bool_decide_eq_true_2. }
    split; [done |]. split.
    + intros row Hrow Heq. rewrite listed_index in Hrow.
      eapply listing_row_holds in Hrow as [Hstored HQ]; [|done].
      rewrite Heq, Hp' in Hstored. injection Hstored as Hpost.
      rewrite Heq, <- Hpost in HQ.
      apply get_q_available_holds in HQ as [Hv | [? _]]; [|done].
      exact (null_category_not_public _ _ (set_post_category None p)
               eq_refl Hv).
    + intros Hother. rewrite serve_post_detail, Hp'.
      destruct (Q_holds _ _ k (set_post_category None p)) eqn:HQ; [|done].
      apply get_q_available_holds in HQ as [Hv | [_ Ha]].
      * destruct (null_category_not_public _ _ (set_post_category None p)
                    eq_refl Hv).
      * apply authored_by_is_request_user in Ha. cbn in Ha. congruence.
  - intros Hcat. split.
    { rewrite Category_delete_posts, Hp. cbn.
      by rewrite bool_decide_eq_false_2. }
    intros own. apply Bool.eq_true_iff_eq. rewrite !get_q_available_holds.
    assert (Hpublic : publicly_visible (Category_delete category_pk s)
                        (now request) p
                      ↔ publicly_visible s (now request) p).
    { unfold publicly_visible, Category_delete. cbn [categories].
      split; intros (Hdate & Hpub & c & cat & Hc & Hlookup & Hcpub);
        (split; [done |]; split; [done |]; exists c, cat; split; [done |];
         split; [|done]).
      - by apply lookup_delete_Some in Hlookup as [_ ?].
      - apply lookup_delete_Some. split; [congruence | done]. }
    by rewrite Hpublic.
Qed.

(** Deleting the category Travel: post 10 was public and is hidden
    afterwards. *)
Lemma Category_delete_visibility_witness :
  let s := Sample.store in
  let request := Sample.anonymous 1000 GET in
  (post_category Sample.hello = Some 1 →
   posts (Category_delete 1 s) !! 10
   = Some (set_post_category None Sample.hello)
   ∧ (∀ row,
        row ∈ listed (serve (index request) (Category_delete 1 s)).1 →
        row_pk row ≠ 10)
   ∧ (is_request_user request (Some (post_author Sample.hello)) = false →
      (serve (post_detail request 10) (Category_delete 1 s)).1
      = page_not_found))
  ∧ (post_category Sample.hello ≠ Some 1 →
     posts (Category_delete 1 s) !! 10 = Some Sample.hello
     ∧ ∀ own,
         Q_holds (Category_delete 1 s) (_get_q_available request own)
           10 Sample.hello
         = Q_holds s (_get_q_available request own) 10 Sample.hello).
Proof.
  apply (Category_delete_visibility Sample.store 1
           (Sample.anonymous 1000 GET) 10 Sample.hello).
  vm_compute. reflexivity.
Defined.
